(** * AI_Research_Template: paper search and theory document rendering

    A shallow embedding of [_backend/scripts/search_papers.py] and
    [_backend/scripts/theory_explorer.py].

    Conventions.
    - A Python [str] is a Rocq [string]; each [ascii] stands for one code
      point in the range 0..255 (Latin-1).  Code points above 255 are outside
      the model.
    - A Python value (a decoded JSON document, a field of a paper dict) is a
      [pyval]; a dict is the list of its bindings in insertion order, looked
      up from the front.  JSON floats are outside the model.
    - Code that can raise returns a [result]; the exception classes are
      those the modelled operations raise.
    - The network, the URL encoder, the XML parser and the JSON decoder are
      collaborators of the program: they are the fields of a [world] record.
      A text that [urlencode] cannot encode (one that holds a lone surrogate)
      is a text on which the [urlencode] of the world raises.
    - Printing to stdout and writing a file that was opened succeed. *)

From Stdlib Require Import String Ascii List ZArith Bool Arith Lia DecimalString.
Import ListNotations.
Local Open Scope list_scope.
Local Open Scope string_scope.

Set Warnings "-register-all".

(* ====================================================================== *)
(** ** Exceptions                                                          *)
(* ====================================================================== *)

Inductive exn : Type :=
| AttributeError
| TypeError
| IndexError
| KeyError
| ValueError
| UnicodeEncodeError
| UpstreamError (msg : string).

Inductive result (A : Type) : Type :=
| Ok (a : A)
| Raise (e : exn).

Arguments Ok {A} a.
Arguments Raise {A} e.

Definition bind {A B : Type} (r : result A) (k : A -> result B) : result B :=
  match r with
  | Ok a => k a
  | Raise e => Raise e
  end.

Notation "x <- r ;; k" := (bind r (fun x => k))
  (at level 61, r at next level, right associativity).

(** A [for] loop (or a list comprehension) whose body can raise: the first
    exception ends the loop. *)
Fixpoint mapM {A B : Type} (f : A -> result B) (l : list A) : result (list B) :=
  match l with
  | [] => Ok []
  | a :: l' =>
      b <- f a ;;
      bs <- mapM f l' ;;
      Ok (b :: bs)
  end.

(* ====================================================================== *)
(** ** Python strings                                                      *)
(* ====================================================================== *)

Module PyStr.

(** [str.isspace] on one code point below 256. *)
Definition isspace (c : ascii) : bool :=
  let n := nat_of_ascii c in
  (((9 <=? n) && (n <=? 13)) || ((28 <=? n) && (n <=? 32))
   || (n =? 133) || (n =? 160))%nat.

(** [str.lower] on one code point below 256. *)
Definition lower_char (c : ascii) : ascii :=
  let n := nat_of_ascii c in
  if (((65 <=? n) && (n <=? 90))
      || ((192 <=? n) && (n <=? 222) && negb (n =? 215)))%nat
  then ascii_of_nat (n + 32)
  else c.

Fixpoint lower (s : string) : string :=
  match s with
  | EmptyString => EmptyString
  | String c s' => String (lower_char c) (lower s')
  end.

Definition is_empty (s : string) : bool :=
  match s with
  | EmptyString => true
  | String _ _ => false
  end.

(** [s[:n]] for a non-negative [n]. *)
Fixpoint take (n : nat) (s : string) : string :=
  match n, s with
  | O, _ => EmptyString
  | S _, EmptyString => EmptyString
  | S n', String c s' => String c (take n' s')
  end.

Fixpoint lstrip (s : string) : string :=
  match s with
  | EmptyString => EmptyString
  | String c s' => if isspace c then lstrip s' else s
  end.

Fixpoint rstrip (s : string) : string :=
  match s with
  | EmptyString => EmptyString
  | String c s' =>
      match rstrip s' with
      | EmptyString => if isspace c then EmptyString else String c EmptyString
      | r => String c r
      end
  end.

(** [s.strip()] *)
Definition strip (s : string) : string := rstrip (lstrip s).

(** [s.replace(old, new)] for a one-character [old]. *)
Fixpoint replace (old : ascii) (new : string) (s : string) : string :=
  match s with
  | EmptyString => EmptyString
  | String c s' =>
      if Ascii.eqb c old then new ++ replace old new s'
      else String c (replace old new s')
  end.

(** [s.split()]: the maximal runs of non-whitespace characters. *)
Fixpoint split_from (tok : string) (s : string) : list string :=
  match s with
  | EmptyString => if is_empty tok then [] else [tok]
  | String c s' =>
      if isspace c
      then (if is_empty tok then split_from EmptyString s'
            else tok :: split_from EmptyString s')
      else split_from (tok ++ String c EmptyString) s'
  end.

Definition split (s : string) : list string := split_from EmptyString s.

(** [s.split(sep)] for a one-character [sep]: never an empty list. *)
Fixpoint split_on_from (sep : ascii) (tok : string) (s : string) : list string :=
  match s with
  | EmptyString => [tok]
  | String c s' =>
      if Ascii.eqb c sep then tok :: split_on_from sep EmptyString s'
      else split_on_from sep (tok ++ String c EmptyString) s'
  end.

Definition split_on (sep : ascii) (s : string) : list string :=
  split_on_from sep EmptyString s.

(** [sep.join(l)] on a list of strings. *)
Definition join (sep : string) (l : list string) : string := String.concat sep l.

(** [needle in s] *)
Fixpoint contains (needle s : string) : bool :=
  if String.prefix needle s then true
  else match s with
       | EmptyString => false
       | String _ s' => contains needle s'
       end.

Definition of_Z (z : Z) : string := NilZero.string_of_int (Z.to_int z).

End PyStr.

(* ====================================================================== *)
(** ** Python values                                                       *)
(* ====================================================================== *)

Inductive pyval : Type :=
| VNone
| VBool (b : bool)
| VInt (z : Z)
| VStr (s : string)
| VList (l : list pyval)
| VDict (d : list (string * pyval)).

(** A paper is the dict an adapter builds. *)
Definition paper : Type := list (string * pyval).

Fixpoint dict_get (d : list (string * pyval)) (k : string) : option pyval :=
  match d with
  | [] => None
  | (k', v) :: d' => if String.eqb k' k then Some v else dict_get d' k
  end.

Module Py.

(** [d.get(k, default)] on a dict. *)
Definition get_or (d : list (string * pyval)) (k : string) (default : pyval) : pyval :=
  match dict_get d k with
  | Some v => v
  | None => default
  end.

(** [v.get(k, default)]: only a dict has the method. *)
Definition get (v : pyval) (k : string) (default : pyval) : result pyval :=
  match v with
  | VDict d => Ok (get_or d k default)
  | _ => Raise AttributeError
  end.

(** Truth value of [v], as tested by [or], [not] and [if]. *)
Definition truthy (v : pyval) : bool :=
  match v with
  | VNone => false
  | VBool b => b
  | VInt z => negb (Z.eqb z 0)
  | VStr s => negb (PyStr.is_empty s)
  | VList l => match l with [] => false | _ :: _ => true end
  | VDict d => match d with [] => false | _ :: _ => true end
  end.

(** [v[:n]]: defined on sequences; a dict has no slice key and the other
    values are not subscriptable. *)
Definition slice_to (n : nat) (v : pyval) : result pyval :=
  match v with
  | VStr s => Ok (VStr (PyStr.take n s))
  | VList l => Ok (VList (firstn n l))
  | _ => Raise TypeError
  end.

Fixpoint chars (s : string) : list pyval :=
  match s with
  | EmptyString => []
  | String c s' => VStr (String c EmptyString) :: chars s'
  end.

(** The items a [for] visits. *)
Definition iter (v : pyval) : result (list pyval) :=
  match v with
  | VList l => Ok l
  | VStr s => Ok (chars s)
  | VDict d => Ok (map (fun kv => VStr (fst kv)) d)
  | _ => Raise TypeError
  end.

(** [v[0]]; the keys of a decoded dict are strings, so [0] is never one. *)
Definition index0 (v : pyval) : result pyval :=
  match v with
  | VList (x :: _) => Ok x
  | VList [] => Raise IndexError
  | VStr (String c _) => Ok (VStr (String c EmptyString))
  | VStr EmptyString => Raise IndexError
  | VDict _ => Raise KeyError
  | _ => Raise TypeError
  end.

(** [l[0]] and [l[-1]] on a list of strings. *)
Definition first {A : Type} (l : list A) : result A :=
  match l with
  | [] => Raise IndexError
  | x :: _ => Ok x
  end.

Fixpoint last {A : Type} (l : list A) : result A :=
  match l with
  | [] => Raise IndexError
  | [x] => Ok x
  | _ :: l' => last l'
  end.

(** Receiver of a [str] method ([split], [replace], [strip]). *)
Definition as_str (v : pyval) : result string :=
  match v with
  | VStr s => Ok s
  | _ => Raise AttributeError
  end.

(** [len(v)] where it is defined. *)
Definition len (v : pyval) : option nat :=
  match v with
  | VStr s => Some (String.length s)
  | VList l => Some (List.length l)
  | VDict d => Some (List.length d)
  | _ => None
  end.

Definition hex_digit (n : nat) : ascii :=
  nth n ["0"; "1"; "2"; "3"; "4"; "5"; "6"; "7"; "8"; "9";
         "a"; "b"; "c"; "d"; "e"; "f"]%char "0"%char.

Definition squote : ascii := "039"%char.
Definition dquote : ascii := "034"%char.
Definition backslash : ascii := "092"%char.

Fixpoint has_char (c : ascii) (s : string) : bool :=
  match s with
  | EmptyString => false
  | String c' s' => Ascii.eqb c' c || has_char c s'
  end.

Definition repr_char (quote c : ascii) : string :=
  let n := nat_of_ascii c in
  if Ascii.eqb c quote || Ascii.eqb c backslash
  then String backslash (String c EmptyString)
  else if (n =? 9)%nat then "\t"
  else if (n =? 10)%nat then "\n"
  else if (n =? 13)%nat then "\r"
  else if ((n <? 32) || (n =? 127) || ((128 <=? n) && (n <=? 160))
           || (n =? 173))%nat
  then String backslash
         (String "x" (String (hex_digit (n / 16))
                        (String (hex_digit (n mod 16)) EmptyString)))
  else String c EmptyString.

Fixpoint repr_chars (quote : ascii) (s : string) : string :=
  match s with
  | EmptyString => EmptyString
  | String c s' => repr_char quote c ++ repr_chars quote s'
  end.

(** [repr(s)] of a string. *)
Definition repr_str (s : string) : string :=
  let quote := if has_char squote s && negb (has_char dquote s)
               then dquote else squote in
  String quote (repr_chars quote s ++ String quote EmptyString).

(** [repr(v)] *)
Fixpoint repr (v : pyval) : string :=
  match v with
  | VNone => "None"
  | VBool true => "True"
  | VBool false => "False"
  | VInt z => PyStr.of_Z z
  | VStr s => repr_str s
  | VList l => "[" ++ PyStr.join ", " (map repr l) ++ "]"
  | VDict d =>
      "{" ++ PyStr.join ", "
               (map (fun kv => match kv with
                               | (k, x) => repr_str k ++ ": " ++ repr x
                               end) d)
          ++ "}"
  end.

(** [str(v)], which is what a replacement field of an f-string inserts. *)
Definition str (v : pyval) : string :=
  match v with
  | VStr s => s
  | _ => repr v
  end.

(** [sep.join(v)]: every item must be a string. *)
Definition join (sep : string) (v : pyval) : result string :=
  items <- iter v ;;
  strs <- mapM (fun x => match x with
                         | VStr s => Ok s
                         | _ => Raise TypeError
                         end) items ;;
  Ok (PyStr.join sep strs).

(** [a or b], with [b] evaluated only when [a] is false. *)
Definition or_else (a : pyval) (b : result pyval) : result pyval :=
  if truthy a then Ok a else b.

End Py.

(* ====================================================================== *)
(** ** [str.format] with keyword arguments                                 *)
(* ====================================================================== *)

Module Format.

Fixpoint all_digits (s : string) : bool :=
  match s with
  | EmptyString => true
  | String c s' =>
      let n := nat_of_ascii c in
      ((48 <=? n) && (n <=? 57))%nat && all_digits s'
  end.

(** The value of the replacement field [name]: an empty or numeric name is a
    positional index, and no positional argument is ever passed. *)
Definition field (kw : list (string * pyval)) (name : string) : result string :=
  if all_digits name then Raise IndexError
  else match dict_get kw name with
       | Some v => Ok (Py.str v)
       | None => Raise KeyError
       end.

(** [template.format] with the keyword arguments [kw], for a template whose replacement fields are bare
    names (no conversion, format spec, attribute or index), as the templates
    of this program are.  [name] is [Some acc] while the scan is between the
    braces of a field. *)
Fixpoint scan (kw : list (string * pyval)) (name : option string)
         (s : string) : result string :=
  match s with
  | EmptyString =>
      match name with
      | None => Ok EmptyString
      | Some _ => Raise ValueError
      end
  | String c s' =>
      match name with
      | Some acc =>
          if Ascii.eqb c "}" then
            v <- field kw acc ;;
            r <- scan kw None s' ;;
            Ok (v ++ r)
          else if Ascii.eqb c "{" then Raise ValueError
          else scan kw (Some (acc ++ String c EmptyString)) s'
      | None =>
          if Ascii.eqb c "{" then
            match s' with
            | EmptyString => Raise ValueError
            | String c' s'' =>
                if Ascii.eqb c' "{"
                then r <- scan kw None s'' ;; Ok (String "{" r)
                else scan kw (Some EmptyString) s'
            end
          else if Ascii.eqb c "}" then
            match s' with
            | EmptyString => Raise ValueError
            | String c' s'' =>
                if Ascii.eqb c' "}"
                then r <- scan kw None s'' ;; Ok (String "}" r)
                else Raise ValueError
            end
          else r <- scan kw None s' ;; Ok (String c r)
      end
  end.

Definition format (template : string) (kw : list (string * pyval)) : result string :=
  scan kw None template.

End Format.

(* ====================================================================== *)
(** ** XML elements ([xml.etree.ElementTree])                              *)
(* ====================================================================== *)

Inductive element : Type :=
| Element (tag : string) (attrib : list (string * string))
          (text : option string) (children : list element).

(** The bindings of an element's attributes, and of the environment. *)
Fixpoint lookup (a : list (string * string)) (k : string) : option string :=
  match a with
  | [] => None
  | (k', v) :: a' => if String.eqb k' k then Some v else lookup a' k
  end.

Module ET.

Definition tag (e : element) : string :=
  match e with Element t _ _ _ => t end.

Definition attrib (e : element) : list (string * string) :=
  match e with Element _ a _ _ => a end.

Definition text (e : element) : option string :=
  match e with Element _ _ t _ => t end.

Definition children (e : element) : list element :=
  match e with Element _ _ _ c => c end.

(** The qualified tag that the path [atom:local] stands for under
    [ns = {'atom': 'http://www.w3.org/2005/Atom'}]. *)
Definition atom (local : string) : string :=
  "{http://www.w3.org/2005/Atom}" ++ local.

(** [e.findall('atom:local', ns)]: the direct children with that tag. *)
Definition findall (e : element) (local : string) : list element :=
  filter (fun c => String.eqb (tag c) (atom local)) (children e).

(** [e.find('atom:local', ns)]: the first of them, or [None]. *)
Definition find (e : element) (local : string) : option element :=
  match findall e local with
  | [] => None
  | c :: _ => Some c
  end.

(** [e.get(k)] *)
Definition get (e : element) (k : string) : pyval :=
  match lookup (attrib e) k with
  | Some v => VStr v
  | None => VNone
  end.

(** [o.text] where [o] is the outcome of a [find]. *)
Definition text_of (o : option element) : result (option string) :=
  match o with
  | None => Raise AttributeError
  | Some e => Ok (text e)
  end.

(** A text that receives a [str] method call. *)
Definition receiver (t : option string) : result string :=
  match t with
  | None => Raise AttributeError
  | Some s => Ok s
  end.

(** A text that is subscripted. *)
Definition subscripted (t : option string) : result string :=
  match t with
  | None => Raise TypeError
  | Some s => Ok s
  end.

Definition opt_str (t : option string) : pyval :=
  match t with
  | None => VNone
  | Some s => VStr s
  end.

End ET.

(* ====================================================================== *)
(** ** The outside world and the observable effects                        *)
(* ====================================================================== *)

(** The query parameters of the arXiv request. *)
Record arxiv_request : Type := {
  search_query : string;
  start : Z;
  arxiv_max_results : Z;
  sortBy : string;
  sortOrder : string
}.

(** The query parameters and the headers of the Semantic Scholar request. *)
Record s2_request : Type := {
  s2_query : string;
  limit : Z;
  fields : string;
  x_api_key : option string
}.

(** The body and the authorization header of the OpenRouter request. *)
Record openrouter_request : Type := {
  model : string;
  content : string;
  authorization : string
}.

(** [environ] is [os.environ]; [urlencode] is [urllib.parse.urlencode] on
    the items of a [params] dict, which raises UnicodeEncodeError on a value
    that cannot be encoded; [arxiv_api] is [urlopen] on the URL of the
    parameters, [decode] and [ET.fromstring]; [s2_api] and [openrouter_api]
    are [urlopen], [decode] and [json.loads].  Whatever the last three raise
    is an exception of the [try] block that calls them; [urlencode] is called
    before the [try]. *)
Record world : Type := {
  environ : list (string * string);
  urlencode : list (string * pyval) -> result string;
  arxiv_api : arxiv_request -> result element;
  s2_api : s2_request -> result pyval;
  openrouter_api : openrouter_request -> result pyval
}.

(** [os.environ.get(k, "")] *)
Definition environ_get (w : world) (k : string) : string :=
  match lookup (environ w) k with
  | Some v => v
  | None => EmptyString
  end.

Definition OPENROUTER_API_KEY (w : world) : string :=
  environ_get w "OPENROUTER_API_KEY".

Definition SEMANTIC_SCHOLAR_KEY (w : world) : string :=
  environ_get w "SEMANTIC_SCHOLAR_KEY".

(** What is printed to [sys.stderr]. *)
Inductive diagnostic : Type :=
| SearchError (source : string) (e : exn)
| KeyNotSet (variable : string).

Inductive path : Type :=
| Path (s : string)
| Child (dir : path) (name : string).

Inductive event : Type :=
| HttpCall (url : string)
| Stderr (d : diagnostic)
| Found (n : nat)
| Mkdir (p : path)
| WriteFile (p : path) (text : string).

Definition trace : Type := list event.

(* ====================================================================== *)
(** ** search_papers.py: arXiv                                             *)
(* ====================================================================== *)

Definition newline : ascii := "010"%char.

(** The body of the loop over the entries of the feed. *)
Definition arxiv_entry (entry : element) : result paper :=
  t <- ET.text_of (ET.find entry "title") ;;
  t <- ET.receiver t ;;
  let title := PyStr.replace newline " " (PyStr.strip t) in
  s <- ET.text_of (ET.find entry "summary") ;;
  s <- ET.receiver s ;;
  let summary := PyStr.take 500 (PyStr.strip s) in
  authors <- mapM (fun author =>
                     name <- ET.text_of (ET.find author "name") ;;
                     Ok (ET.opt_str name))
                  (ET.findall entry "author") ;;
  i <- ET.text_of (ET.find entry "id") ;;
  i <- ET.receiver i ;;
  arxiv_id <- Py.last (PyStr.split_on "/" i) ;;
  let pdf_link := "https://arxiv.org/pdf/" ++ arxiv_id in
  let categories := map (fun cat => ET.get cat "term")
                        (ET.findall entry "category") in
  p <- ET.text_of (ET.find entry "published") ;;
  p <- ET.subscripted p ;;
  let published := PyStr.take 10 p in
  Ok [ ("title", VStr title);
       ("authors", VList (firstn 3 authors));
       ("abstract", VStr summary);
       ("arxiv_id", VStr arxiv_id);
       ("url", VStr ("https://arxiv.org/abs/" ++ arxiv_id));
       ("pdf", VStr pdf_link);
       ("categories", VList (firstn 3 categories));
       ("date", VStr published);
       ("source", VStr "arXiv") ].

Definition arxiv_url : string := "http://export.arxiv.org/api/query".

Definition arxiv_params (query : string) (max_results : Z)
           (categories : list string) : arxiv_request :=
  let cat_filter :=
    match categories with
    | [] => EmptyString
    | _ :: _ =>
        " AND (" ++ PyStr.join " OR " (map (fun c => "cat:" ++ c) categories)
                 ++ ")"
    end in
  {| search_query := "all:" ++ query ++ cat_filter;
     start := 0;
     arxiv_max_results := max_results;
     sortBy := "relevance";
     sortOrder := "descending" |}.

(** The items of the [params] dict. *)
Definition arxiv_items (req : arxiv_request) : list (string * pyval) :=
  [ ("search_query", VStr (search_query req));
    ("start", VInt (start req));
    ("max_results", VInt (arxiv_max_results req));
    ("sortBy", VStr (sortBy req));
    ("sortOrder", VStr (sortOrder req)) ].

(** The [try] block of [search_arxiv]. *)
Definition search_arxiv_try (w : world) (req : arxiv_request) : result (list paper) :=
  root <- arxiv_api w req ;;
  mapM arxiv_entry (ET.findall root "entry").

(** The URL is built before the [try]: what [urlencode] raises leaves
    [search_arxiv]; what the [try] block raises is caught. *)
Definition search_arxiv (w : world) (query : string) (max_results : Z)
           (categories : list string) : result (list paper * trace) :=
  let req := arxiv_params query max_results categories in
  encoded <- urlencode w (arxiv_items req) ;;
  match search_arxiv_try w req with
  | Ok papers => Ok (papers, [HttpCall arxiv_url])
  | Raise e => Ok ([], [HttpCall arxiv_url; Stderr (SearchError "arXiv" e)])
  end.

(** The papers that a call of an adapter returns, and what the call did;
    nothing when the call raises. *)
Definition found (r : result (list paper * trace)) : list paper :=
  match r with
  | Ok (papers, _) => papers
  | Raise _ => []
  end.

Definition traced (r : result (list paper * trace)) : trace :=
  match r with
  | Ok (_, t) => t
  | Raise _ => []
  end.

(* ====================================================================== *)
(** ** search_papers.py: Semantic Scholar                                  *)
(* ====================================================================== *)

(** The body of the loop over [data.get('data', [])]. *)
Definition s2_paper (p : pyval) : result paper :=
  authors_field <- Py.get p "authors" (VList []) ;;
  first3 <- Py.slice_to 3 authors_field ;;
  items <- Py.iter first3 ;;
  authors <- mapM (fun a => Py.get a "name" (VStr "")) items ;;
  title <- Py.get p "title" (VStr "") ;;
  abstract_field <- Py.get p "abstract" VNone ;;
  abstract <- Py.slice_to 500 (if Py.truthy abstract_field
                               then abstract_field else VStr "") ;;
  year <- Py.get p "year" VNone ;;
  citations <- Py.get p "citationCount" (VInt 0) ;;
  url <- Py.get p "url" (VStr "") ;;
  open_access <- Py.get p "openAccessPdf" (VDict []) ;;
  pdf <- Py.get open_access "url" (VStr "") ;;
  Ok [ ("title", title);
       ("authors", VList authors);
       ("abstract", abstract);
       ("year", year);
       ("citations", citations);
       ("url", url);
       ("pdf", pdf);
       ("source", VStr "Semantic Scholar") ].

Definition s2_url : string :=
  "https://api.semanticscholar.org/graph/v1/paper/search".

Definition s2_params (w : world) (query : string) (max_results : Z) : s2_request :=
  {| s2_query := query;
     limit := max_results;
     fields := "title,authors,abstract,year,citationCount,url,openAccessPdf";
     x_api_key := if PyStr.is_empty (SEMANTIC_SCHOLAR_KEY w) then None
                  else Some (SEMANTIC_SCHOLAR_KEY w) |}.

(** The items of the [params] dict. *)
Definition s2_items (req : s2_request) : list (string * pyval) :=
  [ ("query", VStr (s2_query req));
    ("limit", VInt (limit req));
    ("fields", VStr (fields req)) ].

(** The [try] block of [search_semantic_scholar]. *)
Definition search_semantic_scholar_try (w : world) (req : s2_request)
  : result (list paper) :=
  data <- s2_api w req ;;
  listing <- Py.get data "data" (VList []) ;;
  items <- Py.iter listing ;;
  mapM s2_paper items.

(** As in [search_arxiv], the URL is built before the [try]. *)
Definition search_semantic_scholar (w : world) (query : string)
           (max_results : Z) : result (list paper * trace) :=
  let req := s2_params w query max_results in
  encoded <- urlencode w (s2_items req) ;;
  match search_semantic_scholar_try w req with
  | Ok papers => Ok (papers, [HttpCall s2_url])
  | Raise e =>
      Ok ([], [HttpCall s2_url; Stderr (SearchError "Semantic Scholar" e)])
  end.

(* ====================================================================== *)
(** ** search_papers.py: Perplexity Sonar through OpenRouter               *)
(* ====================================================================== *)

Definition openrouter_url : string :=
  "https://openrouter.ai/api/v1/chat/completions".

Definition perplexity_prompt (query : string) : string :=
  "Search for recent academic papers and research on: " ++ query ++ "

Focus on:
1. Key papers from the last 3 years (2022-2025)
2. Seminal/foundational papers in this area
3. Authors and research groups working on this topic
4. Main theoretical results and methods

Provide specific paper titles, authors, and years when possible.".

(** The [try] block of [search_perplexity]. *)
Definition search_perplexity_try (w : world) (query : string) : result paper :=
  let req := {| model := "perplexity/sonar-pro";
                content := perplexity_prompt query;
                authorization := "Bearer " ++ OPENROUTER_API_KEY w |} in
  answer <- openrouter_api w req ;;
  choices <- Py.get answer "choices" (VList [VDict []]) ;;
  choice <- Py.index0 choices ;;
  message <- Py.get choice "message" (VDict []) ;;
  text <- Py.get message "content" (VStr "") ;;
  Ok [ ("summary", text); ("source", VStr "Perplexity Sonar Pro") ].

Definition search_perplexity (w : world) (query : string)
           (academic_focus : bool) : paper * trace :=
  if PyStr.is_empty (OPENROUTER_API_KEY w)
  then ([], [Stderr (KeyNotSet "OPENROUTER_API_KEY")])
  else match search_perplexity_try w query with
       | Ok summary => (summary, [HttpCall openrouter_url])
       | Raise e =>
           ([], [HttpCall openrouter_url; Stderr (SearchError "Perplexity" e)])
       end.

(* ====================================================================== *)
(** ** search_papers.py: BibTeX                                            *)
(* ====================================================================== *)

Definition unknown_authors : pyval := VList [VStr "Unknown"].

(** [paper.get('year') or paper.get('date', '')[:4] or '2024'] *)
Definition bibtex_year (p : paper) : result pyval :=
  Py.or_else (Py.get_or p "year" VNone)
    (prefix <- Py.slice_to 4 (Py.get_or p "date" (VStr "")) ;;
     Py.or_else prefix (Ok (VStr "2024"))).

(** The citation key, with the year it is built from. *)
Definition citation_key (p : paper) : result (string * pyval) :=
  author0 <- Py.index0 (Py.get_or p "authors" unknown_authors) ;;
  name <- Py.as_str author0 ;;
  first_author <- Py.last (PyStr.split name) ;;
  year <- bibtex_year p ;;
  title <- Py.as_str (Py.get_or p "title" (VStr "paper")) ;;
  word <- Py.first (PyStr.split title) ;;
  let title_word := PyStr.lower word in
  Ok (PyStr.lower first_author ++ Py.str year ++ title_word, year).

(** The body of the loop of [generate_bibtex]. *)
Definition bibtex_entry (p : paper) : result string :=
  ky <- citation_key p ;;
  let (key, year) := ky in
  authors_str <- Py.join " and " (Py.get_or p "authors" unknown_authors) ;;
  Ok ("@article{" ++ key ++ ",
    title = {" ++ Py.str (Py.get_or p "title" (VStr "Unknown Title")) ++ "},
    author = {" ++ authors_str ++ "},
    year = {" ++ Py.str year ++ "},
    url = {" ++ Py.str (Py.get_or p "url" (VStr "")) ++ "},
    note = {Source: " ++ Py.str (Py.get_or p "source" (VStr "Unknown")) ++ "}
}").

Definition blank_line : string := String newline (String newline EmptyString).

Definition generate_bibtex (papers : list paper) : result string :=
  entries <- mapM bibtex_entry papers ;;
  Ok (PyStr.join blank_line entries).

(* ====================================================================== *)
(** ** search_papers.py: the search phase of [main]                        *)
(* ====================================================================== *)

(** The variables of [main] and what it has done so far. *)
Record main_state : Type := {
  all_papers : list paper;
  perplexity_result : paper;
  effects : trace
}.

(** [all_papers.extend(found)] after a search that left [t], followed by the
    report of the count. *)
Definition extend (st : main_state) (r : list paper * trace) : main_state :=
  {| all_papers := (all_papers st ++ fst r)%list;
     perplexity_result := perplexity_result st;
     effects := (effects st ++ snd r ++ [Found (List.length (fst r))])%list |}.

(** The state that [main] has reached when the searches end, and how they
    end: an adapter that raises ends [main] there. *)
Definition main_search (w : world) (query : string) (max_results : Z)
           (arxiv_cats : list string) : main_state * result unit :=
  let st0 := {| all_papers := []; perplexity_result := []; effects := [] |} in
  match search_arxiv w query max_results arxiv_cats with
  | Raise e => (st0, Raise e)
  | Ok arxiv_found =>
      let st1 := extend st0 arxiv_found in
      match search_semantic_scholar w query max_results with
      | Raise e => (st1, Raise e)
      | Ok ss_found =>
          let st2 := extend st1 ss_found in
          let r := search_perplexity w query true in
          ({| all_papers := all_papers st2;
              perplexity_result := fst r;
              effects := (effects st2 ++ snd r)%list |}, Ok tt)
      end
  end.

(* ====================================================================== *)
(** ** theory_explorer.py                                                  *)
(* ====================================================================== *)

Definition THEORY_ANALYSIS_PROMPT : string :=
  "You are a theoretical machine learning researcher. Analyze the following research problem and provide a comprehensive theoretical framework.

Research Problem: {problem}

Provide analysis in the following structure:

1. **Problem Formulation**
   - Mathematical model
   - Key assumptions (A1, A2, A3...)
   - Loss function definition

2. **Identifiability Analysis**
   - Under what conditions is the solution unique?
   - What are the symmetries/degeneracies?
   - Coercivity conditions

3. **Convergence Analysis**
   - Consistency: Does estimator converge to truth?
   - Rate: How fast? (parametric n^{-1/2} or nonparametric n^{-s/(2s+d)})
   - Dependencies: On dimension d, smoothness s, sample size n

4. **Lower Bounds**
   - Information-theoretic limits (Fano, Le Cam)
   - Fisher information / CRLB
   - Minimax optimality

5. **Key References**
   - Foundational papers
   - Recent advances
   - Related problems

Be precise with mathematical notation. Use LaTeX formatting.".

(** The [template] of [generate_theory_tex], before [format]. *)
Definition template : string :=
  "%% ============================================================================
%% Theoretical Analysis - Auto-generated
%% Author: Viska Wei
%% Generated: {date}
%% ============================================================================

\documentclass[11pt]{{article}}
\usepackage{{amsmath,amssymb,amsthm}}
\usepackage[margin=1in]{{geometry}}
\usepackage{{hyperref}}
\usepackage{{tcolorbox}}

\newtheorem{{theorem}}{{Theorem}}[section]
\newtheorem{{proposition}}[theorem]{{Proposition}}
\newtheorem{{lemma}}[theorem]{{Lemma}}
\newtheorem{{definition}}[theorem]{{Definition}}
\newtheorem{{remark}}[theorem]{{Remark}}
\newtheorem{{assumption}}{{Assumption}}

\title{{\textbf{{Theoretical Analysis}}\\[0.5em]
\large {problem}}}
\author{{Viska Wei}}
\date{{\today}}

\begin{{document}}
\maketitle

\begin{{abstract}}
This document presents a comprehensive theoretical analysis for the research problem:
\emph{{{problem}}}.
We establish identifiability conditions, convergence rates, and information-theoretic lower bounds.
\end{{abstract}}

\tableofcontents
\newpage

%% ============================================================================
%% AI-Generated Analysis
%% ============================================================================

{analysis}

%% ============================================================================
%% Related Work
%% ============================================================================

\section{{Related Work}}

The following papers are relevant to this theoretical analysis:

\begin{{enumerate}}
{paper_list}
\end{{enumerate}}

\bibliographystyle{{plain}}
\bibliography{{related_papers}}

\end{{document}}
".

Definition tex_escape_title (t : string) : string :=
  PyStr.replace "&" "\&" (PyStr.replace "_" "\_" t).

Definition tex_escape_problem (problem : string) : string :=
  PyStr.replace "_" "\_" problem.

(** The body of the loop that formats the paper list: one item. *)
Definition paper_item (p : paper) : result string :=
  t <- Py.as_str (Py.get_or p "title" (VStr "Unknown")) ;;
  let title := tex_escape_title t in
  first2 <- Py.slice_to 2 (Py.get_or p "authors" unknown_authors) ;;
  authors <- Py.join ", " first2 ;;
  let url := Py.get_or p "url" (VStr "") in
  Ok ("    \item \textbf{" ++ title ++ "} by " ++ authors
        ++ ". \url{" ++ Py.str url ++ "}" ++ String newline EmptyString).

(** The loop: [paper_list += item] for each paper, starting from [acc]. *)
Fixpoint paper_list_from (acc : string) (papers : list paper) : result string :=
  match papers with
  | [] => Ok acc
  | p :: rest =>
      item <- paper_item p ;;
      paper_list_from (acc ++ item) rest
  end.

Definition paper_list (papers : list paper) : result string :=
  paper_list_from EmptyString (firstn 10 papers).

(** The text written to [theoretical_analysis.tex]; [today] is
    [datetime.now().strftime("%Y-%m-%d")]. *)
Definition theory_tex (today problem : string) (analysis : pyval)
           (papers : list paper) : result string :=
  listing <- paper_list papers ;;
  Format.format template
    [ ("date", VStr today);
      ("problem", VStr (tex_escape_problem problem));
      ("analysis", analysis);
      ("paper_list", VStr listing) ].

(** The directory is created and the files are opened without error; opening
    [related_papers.bib] truncates it before [generate_bibtex] runs. *)
Definition generate_theory_tex (today problem : string) (analysis : pyval)
           (papers : list paper) (output_dir : path) : result path * trace :=
  match theory_tex today problem analysis papers with
  | Raise e => (Raise e, [])
  | Ok text =>
      let tex_path := Child output_dir "theoretical_analysis.tex" in
      let bib_path := Child output_dir "related_papers.bib" in
      match generate_bibtex papers with
      | Raise e =>
          (Raise e, [Mkdir output_dir; WriteFile tex_path text;
                     WriteFile bib_path EmptyString])
      | Ok bib =>
          (Ok tex_path, [Mkdir output_dir; WriteFile tex_path text;
                         WriteFile bib_path bib])
      end
  end.

Definition compute_fisher_info_template : string :=
  "
\section{Fisher Information and CRLB}

\subsection{Fisher Information Matrix}

For a parametric model $p(X; \theta)$, the Fisher information is:
\begin{equation}
I(\theta) = \mathbb{E}\left[\nabla_\theta \log p(X; \theta) \nabla_\theta \log p(X; \theta)^\top\right]
\end{equation}

\subsection{Cram" ++ String "233"%char EmptyString ++ "r-Rao Lower Bound}

For any unbiased estimator $\hat{\theta}$:
\begin{equation}
\mathrm{Var}(\hat{\theta}) \geq I(\theta)^{-1}
\end{equation}

\subsection{Practical Computation}

For the specific problem at hand, the Fisher information can be computed as:

\begin{tcolorbox}[colback=yellow!5!white,colframe=yellow!75!black,title=TODO: Problem-Specific Fisher]
Replace with actual Fisher information computation for your problem:
\begin{itemize}
    \item Model: $p(X; \theta) = ...$
    \item Score: $\nabla_\theta \log p = ...$
    \item Fisher: $I(\theta) = ...$
    \item CRLB: $\mathrm{Var}(\hat{\theta}) \geq ...$
\end{itemize}
\end{tcolorbox}
".

(** The template that [main] uses when there is no analysis. *)
Definition analysis_template : string :=
  "
\section{Problem Formulation}

% TODO: Fill in problem-specific formulation

\section{Identifiability}

% TODO: Establish identifiability conditions

\section{Convergence Analysis}

% TODO: Derive convergence rates

" ++ compute_fisher_info_template ++ "
".

Definition theory_cats : list string :=
  ["math.ST"; "stat.TH"; "stat.ML"; "math.OC"; "cs.LG"].

Definition output_directory (output : option string) (topic : string) : path :=
  match output with
  | Some o => if PyStr.is_empty o
              then Path ("experiments/" ++ topic ++ "/theory")
              else Path o
  | None => Path ("experiments/" ++ topic ++ "/theory")
  end.

(** [main] of theory_explorer.py; [None] is the return of [--search-only].
    The summary of the answer is the analysis, replaced by the template when
    it is false. *)
Definition theory_main (w : world) (today problem topic : string)
           (output : option string) (search_only : bool)
  : result (option path) * trace :=
  match search_arxiv w problem 15 theory_cats with
  | Raise e => (Raise e, [])
  | Ok arxiv_found =>
      if search_only then (Ok None, snd arxiv_found)
      else
        match Format.format THEORY_ANALYSIS_PROMPT [("problem", VStr problem)] with
        | Raise e => (Raise e, snd arxiv_found)
        | Ok prompt =>
            let answer := search_perplexity w prompt true in
            let summary := Py.get_or (fst answer) "summary" (VStr "") in
            let analysis := if Py.truthy summary then summary
                            else VStr analysis_template in
            let written := generate_theory_tex today problem analysis
                             (fst arxiv_found) (output_directory output topic) in
            (p <- fst written ;; Ok (Some p),
             (snd arxiv_found ++ snd answer ++ snd written)%list)
        end
  end.

(* ====================================================================== *)
(** ** The document skeleton, as the specification describes it            *)
(* ====================================================================== *)

(** The document: the title block and the abstract with the problem
    statement, the analysis section, the Related Work list. *)
Definition document (today escaped_problem analysis listing : string) : string :=
  "%% ============================================================================
%% Theoretical Analysis - Auto-generated
%% Author: Viska Wei
%% Generated: " ++ today ++ "
%% ============================================================================

\documentclass[11pt]{article}
\usepackage{amsmath,amssymb,amsthm}
\usepackage[margin=1in]{geometry}
\usepackage{hyperref}
\usepackage{tcolorbox}

\newtheorem{theorem}{Theorem}[section]
\newtheorem{proposition}[theorem]{Proposition}
\newtheorem{lemma}[theorem]{Lemma}
\newtheorem{definition}[theorem]{Definition}
\newtheorem{remark}[theorem]{Remark}
\newtheorem{assumption}{Assumption}

\title{\textbf{Theoretical Analysis}\\[0.5em]
\large " ++ escaped_problem ++ "}
\author{Viska Wei}
\date{\today}

\begin{document}
\maketitle

\begin{abstract}
This document presents a comprehensive theoretical analysis for the research problem:
\emph{" ++ escaped_problem ++ "}.
We establish identifiability conditions, convergence rates, and information-theoretic lower bounds.
\end{abstract}

\tableofcontents
\newpage

%% ============================================================================
%% AI-Generated Analysis
%% ============================================================================

" ++ analysis ++ "

%% ============================================================================
%% Related Work
%% ============================================================================

\section{Related Work}

The following papers are relevant to this theoretical analysis:

\begin{enumerate}
" ++ listing ++ "
\end{enumerate}

\bibliographystyle{plain}
\bibliography{related_papers}

\end{document}
".

(** What one item of the Related Work list shows of a paper. *)
Record citation : Type := {
  shown_title : string;
  shown_authors : list string;
  shown_url : string
}.

(** [c] is what the renderer reads from the dict [p]. *)
Definition shows (p : paper) (c : citation) : Prop :=
  Py.get_or p "title" (VStr "Unknown") = VStr (shown_title c)
  /\ Py.get_or p "authors" unknown_authors = VList (map VStr (shown_authors c))
  /\ Py.str (Py.get_or p "url" (VStr "")) = shown_url c.

(** Bolded title, first two authors joined by a comma, a link. *)
Definition related_work_item (c : citation) : string :=
  "    \item \textbf{" ++ tex_escape_title (shown_title c) ++ "} by "
    ++ PyStr.join ", " (firstn 2 (shown_authors c))
    ++ ". \url{" ++ shown_url c ++ "}" ++ String newline EmptyString.

(** The items of the list, one after the other. *)
Fixpoint items_text (cs : list citation) : string :=
  match cs with
  | [] => EmptyString
  | c :: rest => related_work_item c ++ items_text rest
  end.

(** The template-safe form of one character of a title. *)
Definition tex_safe (c : ascii) : string :=
  if Ascii.eqb c "_" then "\_"
  else if Ascii.eqb c "&" then "\&"
  else String c EmptyString.

Fixpoint tex_safe_text (s : string) : string :=
  match s with
  | EmptyString => EmptyString
  | String c s' => tex_safe c ++ tex_safe_text s'
  end.

(** ** The citation key, as the specification describes it *)

Definition year_absent (p : paper) : Prop :=
  dict_get p "year" = None \/ dict_get p "year" = Some VNone.

Definition date_absent (p : paper) : Prop :=
  dict_get p "date" = None \/ dict_get p "date" = Some (VStr "").

(** The year text of a paper: the year field if present, else the first four
    characters of the date, else the literal 2024. *)
Inductive year_text (p : paper) : string -> Prop :=
| year_of_field (y : Z) :
    dict_get p "year" = Some (VInt y) -> y <> 0%Z ->
    year_text p (PyStr.of_Z y)
| year_of_date (d : string) :
    year_absent p -> dict_get p "date" = Some (VStr d) -> d <> "" ->
    year_text p (PyStr.take 4 d)
| year_fallback :
    year_absent p -> date_absent p ->
    year_text p "2024".

(** The year is a four-digit value and the date has its year prefix. *)
Definition four_digit_year (p : paper) : Prop :=
  (forall y, dict_get p "year" = Some (VInt y) -> (1000 <= y <= 9999)%Z)
  /\ (forall d, dict_get p "date" = Some (VStr d) -> d <> "" ->
                4 <= String.length d).

(** Every character of [s] is whitespace ([s] may be empty). *)
Fixpoint blank (s : string) : bool :=
  match s with
  | EmptyString => true
  | String c s' => PyStr.isspace c && blank s'
  end.

(** An authors list that is present but empty, or a title that is present
    but blank once the first author and the year have been read. *)
Definition no_first_token (p : paper) : Prop :=
  dict_get p "authors" = Some (VList [])
  \/ exists a others y t,
       dict_get p "authors" = Some (VList (VStr a :: others))
       /\ PyStr.split a <> []
       /\ bibtex_year p = Ok y
       /\ dict_get p "title" = Some (VStr t)
       /\ blank t = true.

(* ====================================================================== *)
(** ** Sample feeds, responses and worlds                                  *)
(* ====================================================================== *)

Definition atom_element (local : string) (txt : option string)
           (kids : list element) : element :=
  Element (ET.atom local) [] txt kids.

Definition sample_entry (title id : string) : element :=
  atom_element "entry" None
    [ atom_element "id" (Some id) [];
      atom_element "published" (Some "2021-03-04T17:58:01Z") [];
      atom_element "title" (Some title) [];
      atom_element "summary" (Some "  We study sparse regression.  ") [];
      atom_element "author" None [atom_element "name" (Some "Ada Lovelace") []];
      atom_element "author" None [atom_element "name" (Some "Alan Turing") []];
      Element (ET.atom "category") [("term", "stat.ML")] None [] ].

(** An entry whose summary element is missing. *)
Definition entry_without_summary : element :=
  atom_element "entry" None
    [ atom_element "id" (Some "http://arxiv.org/abs/2103.00002v1") [];
      atom_element "published" (Some "2021-03-05T09:00:00Z") [];
      atom_element "title" (Some "Second paper") [] ].

Definition sample_feed : element :=
  atom_element "feed" None
    [ atom_element "title" (Some "ArXiv Query") [];
      sample_entry "Sparse regression" "http://arxiv.org/abs/2103.00001v1";
      sample_entry "Lasso bounds" "http://arxiv.org/abs/2103.00003v2" ].

Definition feed_with_bad_entry : element :=
  atom_element "feed" None
    [ sample_entry "Sparse regression" "http://arxiv.org/abs/2103.00001v1";
      entry_without_summary ].

Definition empty_feed : element :=
  atom_element "feed" None [atom_element "title" (Some "ArXiv Query") []].

Definition sample_s2_response : pyval :=
  VDict [ ("total", VInt 1);
          ("data", VList [ VDict [ ("paperId", VStr "abc");
                                   ("title", VStr "Compressed sensing");
                                   ("authors", VList [VDict [("name", VStr "Grace Hopper")]]);
                                   ("abstract", VNone);
                                   ("year", VInt 2019);
                                   ("url", VStr "https://www.semanticscholar.org/paper/abc");
                                   ("openAccessPdf", VDict [("url", VStr "https://example.org/abc.pdf")]) ] ]) ].

(** A record of the listing that has no title. *)
Definition s2_response_without_title : pyval :=
  VDict [ ("total", VInt 1);
          ("data", VList [ VDict [ ("paperId", VStr "abc"); ("year", VInt 2020) ] ]) ].

Definition empty_s2_response : pyval :=
  VDict [ ("total", VInt 0); ("data", VList []) ].

(** A world without credentials that answers every request the same way. *)
Definition world_of (feed : result element) (listing : result pyval) : world :=
  {| environ := [("HOME", "/root")];
     urlencode := fun _ => Ok "query=sparse+regression";
     arxiv_api := fun _ => feed;
     s2_api := fun _ => listing;
     openrouter_api := fun _ => Raise (UpstreamError "HTTP Error 401") |}.

Definition sample_world : world :=
  world_of (Ok sample_feed) (Ok sample_s2_response).

Definition failing_world : world :=
  world_of (Raise (UpstreamError "timed out")) (Ok empty_s2_response).

Definition bad_entry_world : world :=
  world_of (Ok feed_with_bad_entry) (Ok s2_response_without_title).

(** A world in which the query cannot be encoded, as when it holds a lone
    surrogate. *)
Definition unencodable_world : world :=
  {| environ := [("HOME", "/root")];
     urlencode := fun _ => Raise UnicodeEncodeError;
     arxiv_api := fun _ => Ok sample_feed;
     s2_api := fun _ => Ok sample_s2_response;
     openrouter_api := fun _ => Raise (UpstreamError "HTTP Error 401") |}.

Definition lovelace2020 : paper :=
  [ ("title", VStr "Sparse  regression bounds");
    ("authors", VList [VStr "Ada B. Lovelace"; VStr "Alan Turing"]);
    ("abstract", VStr "");
    ("year", VInt 2020);
    ("citations", VInt 3);
    ("url", VStr "https://example.org/p");
    ("pdf", VStr "");
    ("source", VStr "Semantic Scholar") ].

(** ** The bounds on the fields of a paper *)

(** Abstract of at most 500 characters, at most 3 authors, at most 3
    categories (a paper without the key has none). *)
Definition within_limits (p : paper) : Prop :=
  (exists a n, dict_get p "abstract" = Some a /\ Py.len a = Some n /\ n <= 500)
  /\ (exists l, dict_get p "authors" = Some (VList l) /\ List.length l <= 3)
  /\ (dict_get p "categories" = None
      \/ exists c, dict_get p "categories" = Some (VList c) /\ List.length c <= 3).

(** The papers found in the sample worlds. *)
Definition sparse_regression_paper : paper :=
  [ ("title", VStr "Sparse regression");
    ("authors", VList [VStr "Ada Lovelace"; VStr "Alan Turing"]);
    ("abstract", VStr "We study sparse regression.");
    ("arxiv_id", VStr "2103.00001v1");
    ("url", VStr "https://arxiv.org/abs/2103.00001v1");
    ("pdf", VStr "https://arxiv.org/pdf/2103.00001v1");
    ("categories", VList [VStr "stat.ML"]);
    ("date", VStr "2021-03-04");
    ("source", VStr "arXiv") ].

Definition hopper2019 : paper :=
  [ ("title", VStr "Compressed sensing");
    ("authors", VList [VStr "Grace Hopper"]);
    ("abstract", VStr "");
    ("year", VInt 2019);
    ("citations", VInt 0);
    ("url", VStr "https://www.semanticscholar.org/paper/abc");
    ("pdf", VStr "https://example.org/abc.pdf");
    ("source", VStr "Semantic Scholar") ].

Definition untitled2020 : paper :=
  [ ("title", VStr "");
    ("authors", VList []);
    ("abstract", VStr "");
    ("year", VInt 2020);
    ("citations", VInt 0);
    ("url", VStr "");
    ("pdf", VStr "");
    ("source", VStr "Semantic Scholar") ].

(** The field [k] of [p] is present and is not empty. *)
Definition has_nonempty (k : string) (p : paper) : Prop :=
  exists v, dict_get p k = Some v /\ Py.truthy v = true.

(** The text of one bibliography entry. *)
Definition bibtex_text (key title : string) (authors : list string)
           (year url source : string) : string :=
  "@article{" ++ key ++ ",
    title = {" ++ title ++ "},
    author = {" ++ PyStr.join " and " authors ++ "},
    year = {" ++ year ++ "},
    url = {" ++ url ++ "},
    note = {Source: " ++ source ++ "}
}".

(** A paper that has neither a year nor a date. *)
Definition undated_paper : paper :=
  [ ("title", VStr "Regression shrinkage and selection");
    ("authors", VList [VStr "Robert Tibshirani"]);
    ("source", VStr "arXiv") ].

(** Papers whose authors are present but empty, whose title is blank, and
    that have no field at all. *)
Definition anonymous_paper : paper :=
  [ ("title", VStr "Sparse regression");
    ("authors", VList []);
    ("date", VStr "2021-03-04");
    ("source", VStr "arXiv") ].

Definition blank_title_paper : paper :=
  [ ("title", VStr "  ");
    ("authors", VList [VStr "Ada Lovelace"]);
    ("date", VStr "2021-03-04");
    ("source", VStr "arXiv") ].

Definition empty_paper : paper := [].

Definition sparse_regression_citation : citation :=
  {| shown_title := "Sparse regression";
     shown_authors := ["Ada Lovelace"; "Alan Turing"];
     shown_url := "https://arxiv.org/abs/2103.00001v1" |}.

(** An argument of [format] as the text that [format] inserts for it. *)
Definition as_text (kv : string * pyval) : string * pyval :=
  (fst kv, VStr (Py.str (snd kv))).

(** No character of [s] is whitespace. *)
Fixpoint spaceless (s : string) : bool :=
  match s with
  | EmptyString => true
  | String c s' => negb (PyStr.isspace c) && spaceless s'
  end.

(* ====================================================================== *)
(** ** search_papers.py: the report phase of [main]                        *)
(* ====================================================================== *)

(** What [main] prints on stdout after the searches.  The lines that carry a
    pictograph are kept apart from the plain ones. *)
Inductive printed : Type :=
| Line (text : string)
| Total (n : nat)
| JsonRecord (record : pyval)
| SummaryTitle
| Saved (file : string).

Fixpoint repeat_char (c : ascii) (n : nat) : string :=
  match n with
  | O => EmptyString
  | S n' => String c (repeat_char c n')
  end.

(** ['=' * 60] *)
Definition rule : string := repeat_char "=" 60.

Definition of_nat (n : nat) : string := PyStr.of_Z (Z.of_nat n).

(** The loop over [enumerate(all_papers[:10], 1)], from the index [i] on:
    what it printed, and how it ended. *)
Fixpoint print_listing (i : nat) (papers : list paper) : list printed * result unit :=
  match papers with
  | [] => ([], Ok tt)
  | p :: rest =>
      let head := Line (of_nat i ++ ". [" ++ Py.str (Py.get_or p "source" VNone)
                          ++ "] " ++ Py.str (Py.get_or p "title" VNone)) in
      match Py.join ", " (Py.get_or p "authors" (VList [])) with
      | Raise e => ([head], Raise e)
      | Ok authors =>
          let tail := print_listing (S i) rest in
          (head :: Line ("   Authors: " ++ authors)
                :: Line ("   URL: " ++ Py.str (Py.get_or p "url" VNone))
                :: Line EmptyString :: fst tail,
           snd tail)
      end
  end.

(** The record printed under [--json]; [now] is
    [datetime.now().isoformat()]. *)
Definition json_output (query now : string) (st : main_state) : pyval :=
  VDict [ ("query", VStr query);
          ("timestamp", VStr now);
          ("papers", VList (map VDict (all_papers st)));
          ("perplexity_summary",
           Py.get_or (perplexity_result st) "summary" (VStr "")) ].

(** The lines of the AI summary, printed when the result is not empty. *)
Definition print_summary (result : paper) : list printed :=
  match result with
  | [] => []
  | _ :: _ =>
      [ Line (String newline rule); SummaryTitle; Line rule;
        Line (Py.str (Py.get_or result "summary" (VStr "No summary available"))) ]
  end.

(** [if args.output:] and what follows; the file is opened without error. *)
Definition save_bibtex (papers : list paper) (output : option string)
  : list printed * trace * result unit :=
  match output with
  | None => ([], [], Ok tt)
  | Some file =>
      if PyStr.is_empty file then ([], [], Ok tt)
      else match generate_bibtex papers with
           | Raise e => ([], [], Raise e)
           | Ok bibtex => ([Saved file], [WriteFile (Path file) bibtex], Ok tt)
           end
  end.

(** [main] from the line that prints the total on. *)
Definition main_report (st : main_state) (query now : string) (json : bool)
           (output : option string) : list printed * trace * result unit :=
  let banner := [ Line (String newline rule);
                  Total (List.length (all_papers st));
                  Line (rule ++ String newline EmptyString) ] in
  if json then
    let saved := save_bibtex (all_papers st) output in
    ((banner ++ JsonRecord (json_output query now st) :: fst (fst saved))%list,
     snd (fst saved), snd saved)
  else
    let listed := print_listing 1 (firstn 10 (all_papers st)) in
    match snd listed with
    | Raise e => ((banner ++ fst listed)%list, [], Raise e)
    | Ok _ =>
        let saved := save_bibtex (all_papers st) output in
        ((banner ++ fst listed ++ print_summary (perplexity_result st)
                 ++ fst (fst saved))%list,
         snd (fst saved), snd saved)
    end.

(** [main] of search_papers.py: the searches, then the report. *)
Definition papers_main (w : world) (query : string) (max_results : Z)
           (arxiv_cats : list string) (now : string) (json : bool)
           (output : option string) : list printed * trace * result unit :=
  let searched := main_search w query max_results arxiv_cats in
  match snd searched with
  | Raise e => ([], effects (fst searched), Raise e)
  | Ok _ =>
      let report := main_report (fst searched) query now json output in
      (fst (fst report),
       (effects (fst searched) ++ snd (fst report))%list, snd report)
  end.

(* ====================================================================== *)
(** ** Well-formed upstream records                                        *)
(* ====================================================================== *)

Definition is_dict (v : pyval) : bool :=
  match v with
  | VDict _ => true
  | _ => false
  end.

Definition is_str (v : pyval) : bool :=
  match v with
  | VStr _ => true
  | _ => false
  end.

Definition sliceable (v : pyval) : bool :=
  match v with
  | VStr _ | VList _ => true
  | _ => false
  end.

(** The authors of a Semantic Scholar record that the adapter can read: a
    list whose first three items are objects, or the empty string. *)
Definition s2_authors_ok (v : pyval) : bool :=
  match v with
  | VList l => forallb is_dict (firstn 3 l)
  | VStr s => PyStr.is_empty s
  | _ => false
  end.

(** A record of the listing that the adapter turns into a paper. *)
Definition s2_record_ok (raw : pyval) : bool :=
  match raw with
  | VDict d =>
      s2_authors_ok (Py.get_or d "authors" (VList []))
      && (negb (Py.truthy (Py.get_or d "abstract" VNone))
          || sliceable (Py.get_or d "abstract" VNone))
      && is_dict (Py.get_or d "openAccessPdf" (VDict []))
  | _ => false
  end.

Definition has_text (o : option element) : bool :=
  match o with
  | Some (Element _ _ (Some _) _) => true
  | _ => false
  end.

Definition is_found (o : option element) : bool :=
  match o with
  | Some _ => true
  | None => false
  end.

(** An entry of the feed that the adapter turns into a paper. *)
Definition arxiv_entry_ok (entry : element) : bool :=
  has_text (ET.find entry "title")
  && has_text (ET.find entry "summary")
  && forallb (fun author => is_found (ET.find author "name"))
             (ET.findall entry "author")
  && has_text (ET.find entry "id")
  && has_text (ET.find entry "published").

(** The requests of a run, in order. *)
Fixpoint http_calls (t : trace) : list string :=
  match t with
  | [] => []
  | HttpCall url :: t' => url :: http_calls t'
  | _ :: t' => http_calls t'
  end.

(** The files written in a run, in order. *)
Fixpoint files_written (t : trace) : list path :=
  match t with
  | [] => []
  | WriteFile p _ :: t' => p :: files_written t'
  | _ :: t' => files_written t'
  end.

(** The number of underscores and ampersands of [s]. *)
Fixpoint specials (s : string) : nat :=
  match s with
  | EmptyString => 0
  | String c s' =>
      (if Ascii.eqb c "_" || Ascii.eqb c "&" then 1 else 0) + specials s'
  end.

(** A Semantic Scholar record whose open-access link is null, and one of its
    author names too. *)
Definition s2_response_null_pdf : pyval :=
  VDict [ ("total", VInt 2);
          ("data", VList [ VDict [ ("title", VStr "Compressed sensing");
                                   ("authors", VList [VDict [("name", VStr "Grace Hopper")]]);
                                   ("year", VInt 2019);
                                   ("openAccessPdf", VDict [("url", VStr "https://example.org/abc.pdf")]) ];
                           VDict [ ("title", VStr "Basis pursuit");
                                   ("authors", VList [VDict [("name", VStr "David Donoho")]]);
                                   ("year", VInt 1998);
                                   ("openAccessPdf", VNone) ] ]) ].

Definition null_pdf_world : world :=
  world_of (Ok sample_feed) (Ok s2_response_null_pdf).

(** A world in which the OpenRouter key is set and the answer is [answer]. *)
Definition keyed_world (answer : result pyval) : world :=
  {| environ := [("OPENROUTER_API_KEY", "sk-or-test")];
     urlencode := fun _ => Ok "query=sparse+regression";
     arxiv_api := fun _ => Ok sample_feed;
     s2_api := fun _ => Ok sample_s2_response;
     openrouter_api := fun _ => answer |}.

(** A paper with an author that is not a string. *)
Definition nameless_author_paper : paper :=
  [ ("title", VStr "Sparse regression");
    ("authors", VList [VNone; VStr "Alan Turing"]);
    ("date", VStr "2021-03-04");
    ("url", VStr "https://arxiv.org/abs/2103.00001v1");
    ("source", VStr "arXiv") ].

Definition anonymous_citation : citation :=
  {| shown_title := "Sparse regression";
     shown_authors := [];
     shown_url := "" |}.

(* ====================================================================== *)
(** * Properties                                                           *)
(* ====================================================================== *)

(** ** Loops that can raise *)

Section MapM.

Context {A B : Type} (f : A -> result B).

Lemma mapM_Ok_Forall2 (l : list A) (bs : list B) :
  mapM f l = Ok bs <-> Forall2 (fun a b => f a = Ok b) l bs.
Proof.
  revert bs; induction l as [|a l IH]; intros bs; simpl.
  - split; intros H.
    + injection H as <-. constructor.
    + inversion H. reflexivity.
  - destruct (f a) as [b|e] eqn:Ha; simpl.
    + destruct (mapM f l) as [bs'|e] eqn:Hl; simpl.
      * split; intros H.
        -- injection H as <-. constructor; [assumption | now apply IH].
        -- inversion H as [|? b0 ? bs0 Hb Hrest]; subst.
           rewrite Ha in Hb. injection Hb as <-.
           apply IH in Hrest. now injection Hrest as <-.
      * split; intros H; [discriminate|].
        inversion H as [|? b0 ? bs0 Hb Hrest]; subst.
        apply IH in Hrest. discriminate.
    + split; intros H; [discriminate|].
      inversion H as [|? b0 ? bs0 Hb Hrest]; subst. congruence.
Qed.

Lemma mapM_Ok_In (l : list A) (bs : list B) (b : B) :
  mapM f l = Ok bs -> In b bs -> exists a, In a l /\ f a = Ok b.
Proof.
  intros H; apply mapM_Ok_Forall2 in H.
  induction H as [|a b0 l bs Hab _ IH]; simpl; intros Hin.
  - contradiction.
  - destruct Hin as [<-|Hin].
    + exists a; auto.
    + destruct (IH Hin) as (a' & Ha' & Hf). exists a'; auto.
Qed.

Lemma mapM_Ok_length (l : list A) (bs : list B) :
  mapM f l = Ok bs -> List.length bs = List.length l.
Proof.
  intros H; apply mapM_Ok_Forall2 in H.
  induction H; simpl; congruence.
Qed.

Lemma mapM_total (l : list A) :
  (forall a, In a l -> exists b, f a = Ok b) -> exists bs, mapM f l = Ok bs.
Proof.
  induction l as [|a l IH]; simpl; intros H.
  - eexists; reflexivity.
  - destruct (H a (or_introl eq_refl)) as (b & ->).
    destruct IH as (bs & ->); [intros; apply H; auto|].
    eexists; reflexivity.
Qed.

Lemma mapM_raises (l : list A) (a : A) (e : exn) :
  In a l -> f a = Raise e -> exists e', mapM f l = Raise e'.
Proof.
  induction l as [|a0 l IH]; simpl; intros Hin Ha.
  - contradiction.
  - destruct (f a0) as [b|e0] eqn:H0; simpl.
    + destruct Hin as [->|Hin]; [congruence|].
      destruct (IH Hin Ha) as (e' & ->). eexists; reflexivity.
    + eexists; reflexivity.
Qed.

End MapM.

(** ** Strings *)

Lemma take_length (n : nat) (s : string) : String.length (PyStr.take n s) <= n.
Proof.
  revert s; induction n as [|n IH]; intros [|c s]; simpl; try lia.
  specialize (IH s); lia.
Qed.

Lemma take_length_exact (n : nat) (s : string) :
  n <= String.length s -> String.length (PyStr.take n s) = n.
Proof.
  revert s; induction n as [|n IH]; intros [|c s]; simpl; intros H; try lia.
  rewrite IH; lia.
Qed.

Lemma take_empty (n : nat) (s : string) :
  s <> "" -> 0 < n -> PyStr.is_empty (PyStr.take n s) = false.
Proof.
  destruct s, n; simpl; intros; try lia; congruence.
Qed.

Lemma spaceless_snoc (tok : string) (c : ascii) :
  spaceless (tok ++ String c "") = spaceless tok && negb (PyStr.isspace c).
Proof.
  induction tok as [|c' tok IH]; simpl.
  - now rewrite andb_true_r.
  - rewrite IH. now rewrite andb_assoc.
Qed.

(** The tokens of [split] are not empty and hold no whitespace. *)
Lemma split_from_tokens (s tok : string) :
  spaceless tok = true ->
  Forall (fun x => x <> "" /\ spaceless x = true) (PyStr.split_from tok s).
Proof.
  revert tok; induction s as [|c s IH]; intros tok Htok; simpl.
  - destruct tok; simpl; constructor; [split; [discriminate | assumption] | constructor].
  - destruct (PyStr.isspace c) eqn:Hc.
    + destruct tok; simpl.
      * now apply IH.
      * constructor; [split; [discriminate | assumption] | now apply IH].
    + apply IH. rewrite spaceless_snoc, Htok, Hc. reflexivity.
Qed.

Lemma split_tokens (s : string) :
  Forall (fun x => x <> "" /\ spaceless x = true) (PyStr.split s).
Proof. now apply split_from_tokens. Qed.

Lemma split_from_blank (s : string) :
  blank s = true -> PyStr.split_from "" s = [].
Proof.
  induction s as [|c s IH]; simpl; intros H.
  - reflexivity.
  - apply andb_prop in H as [-> H]. simpl. auto.
Qed.

(** ** Dict lookups *)

Lemma get_or_Some (d : list (string * pyval)) (k : string) (v default : pyval) :
  dict_get d k = Some v -> Py.get_or d k default = v.
Proof. unfold Py.get_or; now intros ->. Qed.

Lemma get_or_None (d : list (string * pyval)) (k : string) (default : pyval) :
  dict_get d k = None -> Py.get_or d k default = default.
Proof. unfold Py.get_or; now intros ->. Qed.

(* ====================================================================== *)
(** ** Aggregation                                                         *)
(* ====================================================================== *)

Lemma main_search_returns (w : world) (query : string) (max_results : Z)
      (arxiv_cats : list string) :
  snd (main_search w query max_results arxiv_cats) = Ok tt ->
  exists a ta s ts,
    search_arxiv w query max_results arxiv_cats = Ok (a, ta)
    /\ search_semantic_scholar w query max_results = Ok (s, ts)
    /\ all_papers (fst (main_search w query max_results arxiv_cats)) = (a ++ s)%list
    /\ perplexity_result (fst (main_search w query max_results arxiv_cats))
       = fst (search_perplexity w query true)
    /\ effects (fst (main_search w query max_results arxiv_cats))
       = (((ta ++ [Found (List.length a)]) ++ ts ++ [Found (List.length s)])
            ++ snd (search_perplexity w query true))%list.
Proof.
  unfold main_search.
  destruct (search_arxiv w query max_results arxiv_cats) as [[a ta]|e];
    [|discriminate].
  destruct (search_semantic_scholar w query max_results) as [[s ts]|e];
    [|discriminate].
  intros _. exists a, ta, s, ts. repeat split.
Qed.

(** C4: for every query and per-source limit for which the searches of
    [main] return, the papers aggregated by [main] are the arXiv results
    followed by the Semantic Scholar results, each in its own order, nothing
    dropped, merged or changed. *)
Theorem aggregation_is_concatenation
        (w : world) (query : string) (max_results : Z) (arxiv_cats : list string) :
  snd (main_search w query max_results arxiv_cats) = Ok tt ->
  let arxiv_papers := found (search_arxiv w query max_results arxiv_cats) in
  let ss_papers := found (search_semantic_scholar w query max_results) in
  let aggregated := all_papers (fst (main_search w query max_results arxiv_cats)) in
  aggregated = (arxiv_papers ++ ss_papers)%list
  /\ List.length aggregated = List.length arxiv_papers + List.length ss_papers
  /\ (forall i, i < List.length arxiv_papers ->
                nth_error aggregated i = nth_error arxiv_papers i)
  /\ (forall i, nth_error aggregated (List.length arxiv_papers + i)
                = nth_error ss_papers i).
Proof.
  intros Hreturns. cbv zeta.
  destruct (main_search_returns w query max_results arxiv_cats Hreturns)
    as (a & ta & s' & ts & -> & -> & E & _).
  rewrite E. cbn [found]. repeat split.
  - apply length_app.
  - intros i Hi. now apply nth_error_app1.
  - intros i. rewrite nth_error_app2 by lia. f_equal; lia.
Qed.

Lemma aggregation_is_concatenation_witness :
  all_papers (fst (main_search sample_world "sparse regression" 10 ["stat.ML"]))
  = (found (search_arxiv sample_world "sparse regression" 10 ["stat.ML"])
       ++ found (search_semantic_scholar sample_world "sparse regression" 10))%list.
Proof.
  exact (proj1 (aggregation_is_concatenation
                  sample_world "sparse regression" 10 ["stat.ML"] eq_refl)).
Defined.

(* ====================================================================== *)
(** ** Missing credential                                                  *)
(* ====================================================================== *)



(* ====================================================================== *)
(** ** Failure isolation                                                   *)
(* ====================================================================== *)

Lemma search_arxiv_encoded (w : world) (query : string) (max_results : Z)
      (categories : list string) (encoded : string) :
  urlencode w (arxiv_items (arxiv_params query max_results categories)) = Ok encoded ->
  search_arxiv w query max_results categories
  = Ok (match search_arxiv_try w (arxiv_params query max_results categories) with
        | Ok papers => (papers, [HttpCall arxiv_url])
        | Raise e => ([], [HttpCall arxiv_url; Stderr (SearchError "arXiv" e)])
        end).
Proof.
  intros H. unfold search_arxiv. rewrite H. cbn [bind].
  destruct (search_arxiv_try w _); reflexivity.
Qed.

Lemma search_semantic_scholar_encoded (w : world) (query : string)
      (max_results : Z) (encoded : string) :
  urlencode w (s2_items (s2_params w query max_results)) = Ok encoded ->
  search_semantic_scholar w query max_results
  = Ok (match search_semantic_scholar_try w (s2_params w query max_results) with
        | Ok papers => (papers, [HttpCall s2_url])
        | Raise e =>
            ([], [HttpCall s2_url; Stderr (SearchError "Semantic Scholar" e)])
        end).
Proof.
  intros H. unfold search_semantic_scholar. rewrite H. cbn [bind].
  destruct (search_semantic_scholar_try w _); reflexivity.
Qed.

(** C6: the adapters do raise past their boundary.  [search_arxiv] and
    [search_semantic_scholar] build their URL with [urlencode] before the
    [try]: for a query that cannot be encoded, the exception of [urlencode]
    leaves both adapters, no request is sent and no diagnostic is printed,
    and [main] ends with this exception before it has found a paper. *)
Theorem urlencode_error_leaves_adapters
        (w : world) (query : string) (max_results : Z)
        (categories : list string) (e : exn) :
  urlencode w (arxiv_items (arxiv_params query max_results categories)) = Raise e ->
  urlencode w (s2_items (s2_params w query max_results)) = Raise e ->
  search_arxiv w query max_results categories = Raise e
  /\ search_semantic_scholar w query max_results = Raise e
  /\ main_search w query max_results categories
     = ({| all_papers := []; perplexity_result := []; effects := [] |}, Raise e).
Proof.
  intros Ha Hs.
  assert (Ea : search_arxiv w query max_results categories = Raise e).
  { unfold search_arxiv. rewrite Ha. reflexivity. }
  split; [exact Ea|]. split.
  - unfold search_semantic_scholar. rewrite Hs. reflexivity.
  - unfold main_search. rewrite Ea. reflexivity.
Qed.

Lemma urlencode_error_leaves_adapters_witness :
  search_arxiv unencodable_world "sparse regression" 10 ["stat.ML"]
  = Raise UnicodeEncodeError
  /\ search_semantic_scholar unencodable_world "sparse regression" 10
     = Raise UnicodeEncodeError.
Proof.
  destruct (urlencode_error_leaves_adapters
              unencodable_world "sparse regression" 10 ["stat.ML"]
              UnicodeEncodeError eq_refl eq_refl) as (Ha & Hs & _).
  split; assumption.
Defined.

(* ====================================================================== *)
(** ** The records the adapters build                                      *)
(* ====================================================================== *)

Ltac bind_inv H :=
  repeat match type of H with
         | bind ?r _ = Ok _ =>
             let x := fresh "x" in
             let E := fresh "E" in
             destruct r as [x|?] eqn:E;
             [cbn beta iota delta [bind] in H | discriminate H]
         end.

Lemma arxiv_entry_shape (entry : element) (p : paper) :
  arxiv_entry entry = Ok p ->
  exists title summary authors arxiv_id categories published,
    p = [ ("title", VStr title);
          ("authors", VList (firstn 3 authors));
          ("abstract", VStr (PyStr.take 500 summary));
          ("arxiv_id", VStr arxiv_id);
          ("url", VStr ("https://arxiv.org/abs/" ++ arxiv_id));
          ("pdf", VStr ("https://arxiv.org/pdf/" ++ arxiv_id));
          ("categories", VList (firstn 3 categories));
          ("date", VStr published);
          ("source", VStr "arXiv") ].
Proof.
  unfold arxiv_entry. intros H. bind_inv H.
  injection H as <-. repeat eexists.
Qed.

Lemma chars_length (s : string) : List.length (Py.chars s) = String.length s.
Proof. induction s; simpl; congruence. Qed.

Lemma slice_to_len (n : nat) (v r : pyval) :
  Py.slice_to n v = Ok r -> exists m, Py.len r = Some m /\ m <= n.
Proof.
  destruct v; simpl; intros H; try discriminate; injection H as <-; simpl.
  - eexists; split; [reflexivity | apply take_length].
  - eexists; split; [reflexivity | apply firstn_le_length].
Qed.

Lemma slice_to_iter_length (n : nat) (v r : pyval) (items : list pyval) :
  Py.slice_to n v = Ok r -> Py.iter r = Ok items -> List.length items <= n.
Proof.
  destruct v; simpl; intros H; try discriminate; injection H as <-; simpl;
    intros H; injection H as <-.
  - rewrite chars_length. apply take_length.
  - apply firstn_le_length.
Qed.

Lemma s2_paper_shape (raw : pyval) (p : paper) :
  s2_paper raw = Ok p ->
  exists d authors abstract pdf n,
    raw = VDict d
    /\ p = [ ("title", Py.get_or d "title" (VStr ""));
             ("authors", VList authors);
             ("abstract", abstract);
             ("year", Py.get_or d "year" VNone);
             ("citations", Py.get_or d "citationCount" (VInt 0));
             ("url", Py.get_or d "url" (VStr ""));
             ("pdf", pdf);
             ("source", VStr "Semantic Scholar") ]
    /\ List.length authors <= 3
    /\ Py.len abstract = Some n /\ n <= 500.
Proof.
  unfold s2_paper. intros H.
  destruct raw as [| | | | |d]; try discriminate H.
  cbn beta iota delta [bind Py.get] in H. bind_inv H.
  injection H as <-.
  match goal with
  | Hs : Py.slice_to 500 _ = Ok _ |- _ =>
      destruct (slice_to_len _ _ _ Hs) as (n & Hn & Hle)
  end.
  exists d. do 3 eexists. exists n.
  split; [reflexivity|]. split; [reflexivity|]. split; [|split; assumption].
  match goal with
  | Hm : mapM _ _ = Ok _ |- _ => rewrite (mapM_Ok_length _ _ _ Hm)
  end.
  eapply slice_to_iter_length; eassumption.
Qed.

Lemma search_arxiv_In (w : world) (query : string) (max_results : Z)
      (categories : list string) (p : paper) :
  In p (found (search_arxiv w query max_results categories)) ->
  exists root entry,
    arxiv_api w (arxiv_params query max_results categories) = Ok root
    /\ In entry (ET.findall root "entry")
    /\ arxiv_entry entry = Ok p.
Proof.
  unfold search_arxiv, search_arxiv_try.
  destruct (urlencode w _) as [encoded|e]; cbn [bind found]; [|contradiction].
  destruct (arxiv_api w _) as [root|e]; cbn [bind found]; [|contradiction].
  destruct (mapM arxiv_entry _) as [ps|e] eqn:Hm; cbn [found]; [|contradiction].
  intros Hin. destruct (mapM_Ok_In _ _ _ _ Hm Hin) as (entry & He & Hp).
  exists root, entry. auto.
Qed.

Lemma search_semantic_scholar_In (w : world) (query : string)
      (max_results : Z) (p : paper) :
  In p (found (search_semantic_scholar w query max_results)) ->
  exists data raw,
    s2_api w (s2_params w query max_results) = Ok data
    /\ s2_paper raw = Ok p.
Proof.
  unfold search_semantic_scholar, search_semantic_scholar_try.
  destruct (urlencode w _) as [encoded|e]; cbn [bind found]; [|contradiction].
  destruct (s2_api w _) as [data|e]; cbn [bind found]; [|contradiction].
  destruct (Py.get data "data" _) as [listing|e]; cbn [bind found]; [|contradiction].
  destruct (Py.iter listing) as [items|e]; cbn [bind found]; [|contradiction].
  destruct (mapM s2_paper items) as [ps|e] eqn:Hm; cbn [found]; [|contradiction].
  intros Hin. destruct (mapM_Ok_In _ _ _ _ Hm Hin) as (raw & _ & Hp).
  exists data, raw. auto.
Qed.

(** C5: every paper built by the arXiv or the Semantic Scholar adapter has an
    abstract of at most 500 characters, at most 3 authors and at most 3
    categories; a Semantic Scholar paper has no categories at all. *)
Theorem adapter_papers_within_limits
        (w : world) (query : string) (max_results : Z)
        (categories : list string) (p : paper) :
  In p (found (search_arxiv w query max_results categories)
          ++ found (search_semantic_scholar w query max_results))%list ->
  within_limits p
  /\ (In p (found (search_semantic_scholar w query max_results)) ->
      dict_get p "categories" = None).
Proof.
  intros Hin. split.
  - apply in_app_or in Hin as [Hin|Hin].
    + apply search_arxiv_In in Hin as (root & entry & _ & _ & Hp).
      apply arxiv_entry_shape in Hp
        as (title & summary & authors & arxiv_id & cats & published & ->).
      unfold within_limits. repeat split.
      * eexists _, _. split; [reflexivity|]. split; [reflexivity|].
        apply take_length.
      * eexists. split; [reflexivity|]. apply firstn_le_length.
      * right. eexists. split; [reflexivity|]. apply firstn_le_length.
    + apply search_semantic_scholar_In in Hin as (data & raw & _ & Hp).
      apply s2_paper_shape in Hp
        as (d & authors & abstract & pdf & n & _ & -> & Hlen & Hn & Hle).
      unfold within_limits. repeat split.
      * exists abstract, n. auto.
      * exists authors. auto.
      * left. reflexivity.
  - intros Hs.
    apply search_semantic_scholar_In in Hs as (data & raw & _ & Hp).
    apply s2_paper_shape in Hp as (d & authors & abstract & pdf & n & _ & -> & _).
    reflexivity.
Qed.

Lemma adapter_papers_within_limits_witness :
  within_limits hopper2019 /\ within_limits sparse_regression_paper.
Proof.
  split.
  - apply (adapter_papers_within_limits
             sample_world "sparse regression" 10 ["stat.ML"] hopper2019).
    vm_compute. right; right; left; reflexivity.
  - apply (adapter_papers_within_limits
             sample_world "sparse regression" 10 ["stat.ML"]
             sparse_regression_paper).
    vm_compute. left; reflexivity.
Defined.

(** The claim that every adapter paper has a non-empty title fails: the
    Semantic Scholar adapter gives a record without a title the empty
    string. *)
Lemma s2_title_may_be_empty :
  ~ (forall p,
       In p (found (search_semantic_scholar bad_entry_world "sparse regression" 10)) ->
       has_nonempty "title" p).
Proof.
  intros H.
  destruct (H untitled2020) as (v & Hv & Ht).
  - vm_compute. left; reflexivity.
  - vm_compute in Hv. injection Hv as <-. discriminate Ht.
Qed.

(** C2, amended: every paper built by the arXiv or the Semantic Scholar
    adapter has a non-empty source and has a title field; the title of a
    Semantic Scholar paper is the value of the upstream record, and the empty
    string when the record omits it. *)
Theorem adapter_papers_source_and_title
        (w : world) (query : string) (max_results : Z)
        (categories : list string) (p : paper) :
  In p (found (search_arxiv w query max_results categories)
          ++ found (search_semantic_scholar w query max_results))%list ->
  has_nonempty "source" p
  /\ (exists v, dict_get p "title" = Some v)
  /\ (In p (found (search_arxiv w query max_results categories)) ->
      dict_get p "source" = Some (VStr "arXiv")
      /\ exists t, dict_get p "title" = Some (VStr t))
  /\ (In p (found (search_semantic_scholar w query max_results)) ->
      dict_get p "source" = Some (VStr "Semantic Scholar")
      /\ exists d, s2_paper (VDict d) = Ok p
           /\ (dict_get d "title" = None -> dict_get p "title" = Some (VStr ""))
           /\ (forall v, dict_get d "title" = Some v -> dict_get p "title" = Some v)).
Proof.
  intros Hin.
  assert (Ha : In p (found (search_arxiv w query max_results categories)) ->
               dict_get p "source" = Some (VStr "arXiv")
               /\ exists t, dict_get p "title" = Some (VStr t)).
  { intros H. apply search_arxiv_In in H as (root & entry & _ & _ & Hp).
    apply arxiv_entry_shape in Hp
      as (title & summary & authors & arxiv_id & cats & published & ->).
    split; [reflexivity | eexists; reflexivity]. }
  assert (Hs : In p (found (search_semantic_scholar w query max_results)) ->
               dict_get p "source" = Some (VStr "Semantic Scholar")
               /\ exists d, s2_paper (VDict d) = Ok p
                    /\ (dict_get d "title" = None ->
                        dict_get p "title" = Some (VStr ""))
                    /\ (forall v, dict_get d "title" = Some v ->
                                  dict_get p "title" = Some v)).
  { intros H. apply search_semantic_scholar_In in H as (data & raw & _ & Hp).
    pose proof Hp as Hshape.
    apply s2_paper_shape in Hshape
      as (d & authors & abstract & pdf & n & -> & Hpeq & _).
    subst p. split; [reflexivity|]. exists d.
    split; [assumption|]. split.
    - intros Hnone. simpl. now rewrite (get_or_None _ _ _ Hnone).
    - intros v Hv. simpl. now rewrite (get_or_Some _ _ _ _ Hv). }
  repeat split; try assumption.
  - apply in_app_or in Hin as [H|H].
    + destruct (Ha H) as (Hsrc & _). exists (VStr "arXiv"). auto.
    + destruct (Hs H) as (Hsrc & _). exists (VStr "Semantic Scholar"). auto.
  - apply in_app_or in Hin as [H|H].
    + destruct (Ha H) as (_ & t & Ht). eauto.
    + apply search_semantic_scholar_In in H as (data & raw & _ & Hp).
      apply s2_paper_shape in Hp
        as (d & authors & abstract & pdf & n & _ & -> & _).
      eexists; reflexivity.
  - now apply Ha.
  - now apply Ha.
  - now apply Hs.
  - now apply Hs.
Qed.

Lemma adapter_papers_source_and_title_witness :
  has_nonempty "source" untitled2020
  /\ dict_get untitled2020 "title" = Some (VStr "").
Proof.
  destruct (adapter_papers_source_and_title
              bad_entry_world "sparse regression" 10 ["stat.ML"] untitled2020)
    as (Hsrc & _ & _ & Hs).
  - vm_compute. left; reflexivity.
  - split; [exact Hsrc|].
    destruct Hs as (_ & d & Hd & Hnone & _).
    + vm_compute. left; reflexivity.
    + reflexivity.
Defined.

(* ====================================================================== *)
(** ** Parse errors in the arXiv feed                                      *)
(* ====================================================================== *)

Lemma last_total {A : Type} (l : list A) :
  l <> [] -> exists x, Py.last l = Ok x.
Proof.
  induction l as [|a l IH]; intros H; [congruence|].
  destruct l as [|b l]; simpl.
  - eexists; reflexivity.
  - apply IH. discriminate.
Qed.

Lemma split_on_from_nonempty (sep : ascii) (tok s : string) :
  PyStr.split_on_from sep tok s <> [].
Proof.
  revert tok; induction s as [|c s IH]; intros tok; simpl.
  - discriminate.
  - destruct (Ascii.eqb c sep); [discriminate | apply IH].
Qed.

(** An entry is parsed when its title, summary, id and published elements
    are there with a text and each author has a name element; authors and
    categories may be missing altogether. *)
Lemma arxiv_entry_total (entry : element) (title summary id published : element)
      (title_text summary_text id_text published_text : string) :
  ET.find entry "title" = Some title -> ET.text title = Some title_text ->
  ET.find entry "summary" = Some summary -> ET.text summary = Some summary_text ->
  ET.find entry "id" = Some id -> ET.text id = Some id_text ->
  ET.find entry "published" = Some published ->
  ET.text published = Some published_text ->
  (forall author, In author (ET.findall entry "author") ->
                  ET.find author "name" <> None) ->
  exists p, arxiv_entry entry = Ok p.
Proof.
  intros Ht Htt Hs Hst Hi Hit Hp Hpt Hauthors.
  unfold arxiv_entry.
  rewrite Ht, Hs, Hi, Hp. simpl. rewrite Htt, Hst, Hit, Hpt. simpl.
  destruct (mapM_total
              (fun author => name <- ET.text_of (ET.find author "name") ;;
                             Ok (ET.opt_str name))
              (ET.findall entry "author")) as (authors & ->).
  { intros author Hin. specialize (Hauthors author Hin).
    destruct (ET.find author "name"); [|congruence].
    simpl. eexists; reflexivity. }
  simpl.
  destruct (last_total (PyStr.split_on "/" id_text)) as (arxiv_id & ->).
  { apply split_on_from_nonempty. }
  simpl. eexists; reflexivity.
Qed.

(** The claim that an unparsable entry is skipped and the others are kept
    fails: one entry without a summary empties the whole result. *)
Lemma arxiv_bad_entry_drops_the_rest :
  ~ (forall entry p,
       In entry (ET.findall feed_with_bad_entry "entry") ->
       arxiv_entry entry = Ok p ->
       In p (found (search_arxiv bad_entry_world "sparse regression" 10 ["stat.ML"]))).
Proof.
  intros H.
  apply (H (sample_entry "Sparse regression" "http://arxiv.org/abs/2103.00001v1")
           sparse_regression_paper).
  - vm_compute. left; reflexivity.
  - vm_compute. reflexivity.
Qed.

(** C7, amended: in the arXiv adapter the recovery is per response, not per
    entry.  When the feed was fetched and parsed, either every entry yields a
    paper, and the result is these papers in the order of the feed, or some
    entry raises, and the result is the empty list with one diagnostic, the
    papers of the other entries included. *)
Theorem arxiv_recovery_is_per_response
        (w : world) (query : string) (max_results : Z)
        (categories : list string) (encoded : string) (root : element) :
  urlencode w (arxiv_items (arxiv_params query max_results categories)) = Ok encoded ->
  arxiv_api w (arxiv_params query max_results categories) = Ok root ->
  let entries := ET.findall root "entry" in
  ((forall entry, In entry entries -> exists p, arxiv_entry entry = Ok p) ->
   exists papers,
     search_arxiv w query max_results categories
     = Ok (papers, [HttpCall arxiv_url])
     /\ Forall2 (fun entry p => arxiv_entry entry = Ok p) entries papers)
  /\ (forall entry e, In entry entries -> arxiv_entry entry = Raise e ->
      exists e',
        search_arxiv w query max_results categories
        = Ok ([], [HttpCall arxiv_url; Stderr (SearchError "arXiv" e')])).
Proof.
  intros Hurl Hroot entries.
  rewrite (search_arxiv_encoded w query max_results categories encoded Hurl).
  unfold search_arxiv_try. rewrite Hroot. cbn [bind]. fold entries. split.
  - intros Hall. destruct (mapM_total arxiv_entry entries Hall) as (papers & Hm).
    rewrite Hm. exists papers. split; [reflexivity|].
    now apply mapM_Ok_Forall2.
  - intros entry e Hin He.
    destruct (mapM_raises arxiv_entry entries entry e Hin He) as (e' & ->).
    exists e'. reflexivity.
Qed.

Lemma arxiv_recovery_is_per_response_witness :
  (exists e',
     search_arxiv bad_entry_world "sparse regression" 10 ["stat.ML"]
     = Ok ([], [HttpCall arxiv_url; Stderr (SearchError "arXiv" e')]))
  /\ (exists papers,
        search_arxiv sample_world "sparse regression" 10 ["stat.ML"]
        = Ok (papers, [HttpCall arxiv_url])
        /\ List.length papers = 2).
Proof.
  split.
  - destruct (arxiv_recovery_is_per_response
                bad_entry_world "sparse regression" 10 ["stat.ML"]
                "query=sparse+regression" feed_with_bad_entry eq_refl eq_refl)
      as (_ & Hbad).
    apply (Hbad entry_without_summary AttributeError).
    + vm_compute. right; left; reflexivity.
    + reflexivity.
  - destruct (arxiv_recovery_is_per_response
                sample_world "sparse regression" 10 ["stat.ML"]
                "query=sparse+regression" sample_feed eq_refl eq_refl)
      as (Hgood & _).
    destruct Hgood as (papers & Hp & Hall).
    + intros entry Hin. vm_compute in Hin.
      destruct Hin as [<-|[<-|[]]]; eexists; vm_compute; reflexivity.
    + exists papers. split; [exact Hp|].
      apply Forall2_length in Hall. rewrite <- Hall. reflexivity.
Defined.

(* ====================================================================== *)
(** ** Citation keys and BibTeX entries                                    *)
(* ====================================================================== *)

Lemma last_default {A : Type} (l : list A) (d : A) :
  l <> [] -> Py.last l = Ok (List.last l d).
Proof.
  induction l as [|a l IH]; intros H; [congruence|].
  destruct l as [|b l].
  - reflexivity.
  - change (Py.last (b :: l) = Ok (List.last (b :: l) d)).
    apply IH. discriminate.
Qed.

Lemma first_default {A : Type} (l : list A) (d : A) :
  l <> [] -> Py.first l = Ok (List.hd d l).
Proof. destruct l; [congruence | reflexivity]. Qed.

Lemma bibtex_year_text (p : paper) (y : string) :
  year_text p y -> exists yv, bibtex_year p = Ok yv /\ Py.str yv = y.
Proof.
  assert (Habsent : year_absent p -> Py.get_or p "year" VNone = VNone).
  { unfold Py.get_or. now intros [-> | ->]. }
  unfold bibtex_year.
  intros [yz Hy Hnz | d Hya Hd Hne | Hya Hda].
  - rewrite (get_or_Some _ _ _ _ Hy). unfold Py.or_else. simpl.
    destruct (Z.eqb_spec yz 0); [contradiction|]. simpl.
    eexists; split; reflexivity.
  - rewrite (Habsent Hya), (get_or_Some _ _ _ _ Hd).
    cbn [Py.slice_to bind Py.or_else Py.truthy].
    unfold Py.or_else, Py.truthy.
    rewrite take_empty by (auto; lia).
    eexists; split; reflexivity.
  - rewrite (Habsent Hya).
    assert (Hd : Py.get_or p "date" (VStr "") = VStr "").
    { unfold Py.get_or. now destruct Hda as [-> | ->]. }
    rewrite Hd. simpl. eexists; split; reflexivity.
Qed.

Lemma year_text_fallback (p : paper) (y : string) :
  year_text p y -> year_absent p -> date_absent p -> y = "2024".
Proof.
  intros [yz Hy Hnz | d Hya Hd Hne | Hya Hda] Habs Hdabs.
  - destruct Habs as [H|H]; congruence.
  - destruct Hdabs as [H|H]; congruence.
  - reflexivity.
Qed.

Lemma of_Z_four_digits (y : Z) :
  (1000 <= y <= 9999)%Z -> String.length (PyStr.of_Z y) = 4.
Proof.
  intros Hy.
  assert (Hall : forallb (fun k => Nat.eqb (String.length
                                              (PyStr.of_Z (1000 + Z.of_nat k))) 4)
                         (seq 0 (90 * 100)) = true)
    by (vm_compute; reflexivity).
  rewrite forallb_forall in Hall.
  specialize (Hall (Z.to_nat (y - 1000))).
  replace (1000 + Z.of_nat (Z.to_nat (y - 1000)))%Z with y in Hall by lia.
  apply Nat.eqb_eq, Hall, in_seq. lia.
Qed.

Lemma year_text_length (p : paper) (y : string) :
  year_text p y -> four_digit_year p -> String.length y = 4.
Proof.
  intros [yz Hy Hnz | d Hya Hd Hne | Hya Hda] (Hyear & Hdate).
  - apply of_Z_four_digits. now apply Hyear.
  - apply take_length_exact. now apply Hdate.
  - reflexivity.
Qed.

Lemma citation_key_value (p : paper) (a : string) (others : list pyval)
      (t y : string) :
  dict_get p "authors" = Some (VList (VStr a :: others)) ->
  PyStr.split a <> [] ->
  dict_get p "title" = Some (VStr t) ->
  PyStr.split t <> [] ->
  year_text p y ->
  exists yv,
    citation_key p
    = Ok (PyStr.lower (List.last (PyStr.split a) "") ++ y
            ++ PyStr.lower (List.hd "" (PyStr.split t)), yv)
    /\ Py.str yv = y.
Proof.
  intros Ha Hsa Ht Hst Hy.
  destruct (bibtex_year_text p y Hy) as (yv & Hyv & Hstr).
  exists yv. split; [|assumption].
  unfold citation_key.
  rewrite (get_or_Some _ _ _ _ Ha), (get_or_Some _ _ _ _ Ht). simpl.
  rewrite (last_default _ "" Hsa). simpl.
  rewrite Hyv. simpl.
  rewrite (first_default _ "" Hst). simpl.
  now rewrite Hstr.
Qed.

Lemma join_strings (sep : string) (names : list string) :
  Py.join sep (VList (map VStr names)) = Ok (PyStr.join sep names).
Proof.
  unfold Py.join. simpl.
  assert (H : mapM (fun x => match x with VStr s => Ok s | _ => Raise TypeError end)
                   (map VStr names) = Ok names).
  { induction names as [|n names IH]; simpl; [reflexivity|].
    now rewrite IH. }
  now rewrite H.
Qed.

(** C3: for a paper whose first author and title have a token, the citation
    key is the lowercased last token of the first author's name, then the
    year text (the year field if present, else the first four characters of
    the date, else the literal 2024), then the lowercased first token of the
    title.  The same year text is the year field of the entry, so a paper
    with neither year nor date shows 2024 in both places; the year text has
    four characters when the year is a four-digit value and the date carries
    its year prefix; and the key depends on the paper through this triple
    only. *)
Theorem citation_key_formula
        (p : paper) (a : string) (others : list string) (t y : string) :
  dict_get p "authors" = Some (VList (map VStr (a :: others))) ->
  PyStr.split a <> [] ->
  dict_get p "title" = Some (VStr t) ->
  PyStr.split t <> [] ->
  year_text p y ->
  let key := PyStr.lower (List.last (PyStr.split a) "") ++ y
               ++ PyStr.lower (List.hd "" (PyStr.split t)) in
  (exists yv, citation_key p = Ok (key, yv) /\ Py.str yv = y)
  /\ bibtex_entry p
     = Ok (bibtex_text key t (a :: others) y
             (Py.str (Py.get_or p "url" (VStr "")))
             (Py.str (Py.get_or p "source" (VStr "Unknown"))))
  /\ (year_absent p -> date_absent p -> y = "2024")
  /\ (four_digit_year p -> String.length y = 4)
  /\ (forall p' others',
        dict_get p' "authors" = Some (VList (VStr a :: others')) ->
        dict_get p' "title" = Some (VStr t) ->
        year_text p' y ->
        exists yv', citation_key p' = Ok (key, yv')).
Proof.
  intros Ha Hsa Ht Hst Hy key.
  destruct (citation_key_value p a (map VStr others) t y Ha Hsa Ht Hst Hy)
    as (yv & Hkey & Hstr).
  fold key in Hkey.
  split; [exists yv; auto|]. split; [|split; [|split]].
  - unfold bibtex_entry. rewrite Hkey.
    cbn beta iota delta [bind].
    rewrite (get_or_Some _ _ _ _ Ha), (get_or_Some _ _ _ _ Ht).
    rewrite (join_strings " and " (a :: others)).
    cbn beta iota delta [bind]. rewrite Hstr. reflexivity.
  - now apply year_text_fallback.
  - now apply year_text_length.
  - intros p' others' Ha' Ht' Hy'.
    destruct (citation_key_value p' a others' t y Ha' Hsa Ht' Hst Hy')
      as (yv' & Hkey' & _).
    exists yv'. exact Hkey'.
Qed.

Lemma citation_key_formula_witness :
  (exists yv, citation_key lovelace2020 = Ok ("lovelace2020sparse", yv))
  /\ (exists yv, citation_key undated_paper = Ok ("tibshirani2024regression", yv)).
Proof.
  split.
  - destruct (citation_key_formula lovelace2020 "Ada B. Lovelace" ["Alan Turing"]
                "Sparse  regression bounds" "2020") as ((yv & Hkey & _) & _).
    + reflexivity.
    + vm_compute. discriminate.
    + reflexivity.
    + vm_compute. discriminate.
    + apply (year_of_field lovelace2020 2020); [reflexivity | lia].
    + exists yv. exact Hkey.
  - destruct (citation_key_formula undated_paper "Robert Tibshirani" []
                "Regression shrinkage and selection" "2024")
      as ((yv & Hkey & _) & _).
    + reflexivity.
    + vm_compute. discriminate.
    + reflexivity.
    + vm_compute. discriminate.
    + apply year_fallback; left; reflexivity.
    + exists yv. exact Hkey.
Defined.

(** C10: [generate_bibtex] is partial.  A paper whose authors field is
    present but is the empty list, or whose title is present but empty or
    made of whitespace only, makes it raise IndexError, the first item of an
    empty list being asked for; the defaults serve only a paper from which
    the key itself is missing, for which an entry is produced. *)
Theorem generate_bibtex_is_partial :
  (forall p rest, no_first_token p ->
                  generate_bibtex (p :: rest) = Raise IndexError)
  /\ (forall p y,
        dict_get p "authors" = None -> dict_get p "title" = None ->
        bibtex_year p = Ok y ->
        generate_bibtex [p]
        = Ok (bibtex_text ("unknown" ++ Py.str y ++ "paper") "Unknown Title"
                ["Unknown"] (Py.str y)
                (Py.str (Py.get_or p "url" (VStr "")))
                (Py.str (Py.get_or p "source" (VStr "Unknown"))))).
Proof.
  split.
  - intros p rest Hbad.
    assert (He : bibtex_entry p = Raise IndexError).
    { unfold bibtex_entry, citation_key.
      destruct Hbad as [Ha | (a & others & y & t & Ha & Hsa & Hy & Ht & Hblank)].
      - now rewrite (get_or_Some _ _ _ _ Ha).
      - rewrite (get_or_Some _ _ _ _ Ha), (get_or_Some _ _ _ _ Ht).
        cbn beta iota delta [bind Py.index0 Py.as_str].
        rewrite (last_default _ "" Hsa). cbn beta iota delta [bind].
        rewrite Hy. cbn beta iota delta [bind].
        unfold PyStr.split. now rewrite (split_from_blank t Hblank). }
    unfold generate_bibtex. simpl. now rewrite He.
  - intros p y Ha Ht Hy.
    unfold generate_bibtex, mapM, bibtex_entry, citation_key.
    rewrite (get_or_None _ _ _ Ha), !(get_or_None _ _ _ Ht), Hy.
    reflexivity.
Qed.

Lemma generate_bibtex_is_partial_witness :
  generate_bibtex [anonymous_paper] = Raise IndexError
  /\ generate_bibtex [blank_title_paper] = Raise IndexError
  /\ exists entry, generate_bibtex [empty_paper] = Ok entry.
Proof.
  destruct generate_bibtex_is_partial as (Hraise & Hdefault).
  split; [|split].
  - apply Hraise. left. reflexivity.
  - apply Hraise. right.
    exists "Ada Lovelace", [], (VStr "2021"), "  ".
    repeat split; try reflexivity. vm_compute. discriminate.
  - eexists. apply (Hdefault empty_paper (VStr "2024")); reflexivity.
Defined.

(* ====================================================================== *)
(** ** The theory document                                                 *)
(* ====================================================================== *)

(** The two replacements applied to a title escape each underscore and each
    ampersand, and nothing else. *)
Lemma tex_escape_title_safe (t : string) :
  tex_escape_title t = tex_safe_text t.
Proof.
  unfold tex_escape_title.
  induction t as [|c t IH]; [reflexivity|].
  cbn [PyStr.replace tex_safe_text]. unfold tex_safe.
  destruct (Ascii.eqb_spec c "_") as [->|Hu].
  - cbn. now rewrite IH.
  - destruct (Ascii.eqb_spec c "&") as [->|Ha].
    + cbn. now rewrite IH.
    + cbn [PyStr.replace]. destruct (Ascii.eqb_spec c "&"); [contradiction|].
      cbn. now rewrite IH.
Qed.

(** The single replacement applied to the problem statement passes an
    ampersand through as it is. *)
Lemma tex_escape_problem_keeps_ampersand (before after : string) :
  tex_escape_problem (before ++ String "&" after)
  = tex_escape_problem before ++ String "&" (tex_escape_problem after).
Proof.
  unfold tex_escape_problem.
  induction before as [|c s IH]; cbn [append PyStr.replace].
  - reflexivity.
  - destruct (Ascii.eqb c "_"); cbn [append]; now rewrite IH.
Qed.

Lemma field_as_text (kw : list (string * pyval)) (name : string) :
  Format.field (map as_text kw) name = Format.field kw name.
Proof.
  unfold Format.field. destruct (Format.all_digits name); [reflexivity|].
  induction kw as [|[k v] kw IH]; [reflexivity|].
  cbn [map as_text fst snd dict_get].
  destruct (String.eqb k name); [reflexivity | exact IH].
Qed.

Lemma scan_as_text (kw : list (string * pyval)) (n : nat) :
  forall (s : string) (name : option string),
    String.length s <= n ->
    Format.scan (map as_text kw) name s = Format.scan kw name s.
Proof.
  induction n as [|n IH]; intros [|c s] name Hlen; simpl in Hlen; try lia;
    try reflexivity.
  cbn [Format.scan]. destruct name as [acc|].
  - rewrite field_as_text, !IH by lia. reflexivity.
  - destruct s as [|c' s'].
    + rewrite !IH by (simpl; lia). reflexivity.
    + simpl in Hlen. rewrite !IH by (simpl; lia). reflexivity.
Qed.

Lemma format_as_text (t : string) (kw : list (string * pyval)) :
  Format.format t (map as_text kw) = Format.format t kw.
Proof. unfold Format.format. now apply (scan_as_text kw (String.length t)). Qed.

Lemma format_template_text (today escaped_problem analysis listing : string) :
  Format.format template
    [ ("date", VStr today); ("problem", VStr escaped_problem);
      ("analysis", VStr analysis); ("paper_list", VStr listing) ]
  = Ok (document today escaped_problem analysis listing).
Proof. vm_compute. reflexivity. Qed.

Lemma format_template (today escaped_problem listing : string) (analysis : pyval) :
  Format.format template
    [ ("date", VStr today); ("problem", VStr escaped_problem);
      ("analysis", analysis); ("paper_list", VStr listing) ]
  = Ok (document today escaped_problem (Py.str analysis) listing).
Proof.
  rewrite <- format_as_text. apply format_template_text.
Qed.

(** C1: the problem statement a_b & c reaches the document with its
    underscore escaped and its ampersand raw, in the title block and in the
    abstract, whereas the title of a paper has both escaped. *)
Theorem problem_ampersand_left_raw :
  exists doc,
    theory_tex "2026-11-03" "a_b & c" (VStr "")
      [ [("title", VStr "R_K & HS"); ("authors", VList [VStr "Ada Lovelace"])] ]
    = Ok doc
    /\ tex_escape_problem "a_b & c" = "a\_b & c"
    /\ PyStr.contains "\large a\_b & c}" doc = true
    /\ PyStr.contains "\emph{a\_b & c}" doc = true
    /\ PyStr.contains "a\_b \& c" doc = false
    /\ PyStr.contains "\textbf{R\_K \& HS}" doc = true.
Proof.
  eexists. split; [vm_compute; reflexivity|].
  repeat split; vm_compute; reflexivity.
Qed.

Lemma append_empty_r (s : string) : s ++ "" = s.
Proof. induction s; simpl; congruence. Qed.

Lemma append_assoc (a b c : string) : (a ++ b) ++ c = a ++ b ++ c.
Proof. induction a; simpl; congruence. Qed.

Lemma paper_item_shows (p : paper) (c : citation) :
  shows p c -> paper_item p = Ok (related_work_item c).
Proof.
  intros (Ht & Ha & Hu). unfold paper_item, related_work_item.
  rewrite Ht, Ha, Hu. cbn [Py.as_str Py.slice_to bind].
  rewrite firstn_map, join_strings. reflexivity.
Qed.

Lemma paper_list_from_shows (papers : list paper) (cs : list citation) :
  Forall2 shows papers cs ->
  forall acc, paper_list_from acc papers = Ok (acc ++ items_text cs).
Proof.
  induction 1 as [|p c papers cs Hpc _ IH]; intros acc; cbn [paper_list_from items_text].
  - now rewrite append_empty_r.
  - rewrite (paper_item_shows p c Hpc). cbn [bind].
    rewrite IH. now rewrite append_assoc.
Qed.

Lemma Forall2_firstn {A B : Type} (R : A -> B -> Prop) (n : nat)
      (l : list A) (l' : list B) :
  Forall2 R l l' -> Forall2 R (firstn n l) (firstn n l').
Proof.
  intros H; revert n; induction H; intros [|n]; simpl; constructor; auto.
Qed.

(** The document rendered for papers that the renderer can read, whatever
    the analysis. *)
Lemma theory_tex_document (today problem : string) (analysis : pyval)
      (papers : list paper) (cs : list citation) :
  Forall2 shows papers cs ->
  theory_tex today problem analysis papers
  = Ok (document today (tex_escape_problem problem) (Py.str analysis)
          (items_text (firstn 10 cs))).
Proof.
  intros H. unfold theory_tex, paper_list.
  rewrite (paper_list_from_shows _ _ (Forall2_firstn shows 10 _ _ H)).
  cbn [bind append]. apply format_template.
Qed.

Lemma prompt_format_raises (problem : string) :
  Format.format THEORY_ANALYSIS_PROMPT [("problem", VStr problem)] = Raise KeyError.
Proof.
  rewrite <- format_as_text. cbn [map as_text fst snd Py.str].
  vm_compute. reflexivity.
Qed.

Lemma search_arxiv_trace (w : world) (query : string) (max_results : Z)
      (categories : list string) (r : list paper * trace) :
  search_arxiv w query max_results categories = Ok r ->
  snd r = [HttpCall arxiv_url]
  \/ exists e, snd r = [HttpCall arxiv_url; Stderr (SearchError "arXiv" e)].
Proof.
  unfold search_arxiv.
  destruct (urlencode w _) as [encoded|e]; cbn [bind]; [|discriminate].
  destruct (search_arxiv_try w _) as [ps|e]; intros H; injection H as <-;
    [left | right; exists e]; reflexivity.
Qed.

Lemma theory_main_stops (w : world) (today problem topic : string)
      (output : option string) (search_only : bool) :
  theory_main w today problem topic output search_only
  = (match search_arxiv w problem 15 theory_cats with
     | Raise e => Raise e
     | Ok _ => if search_only then Ok None else Raise KeyError
     end,
     traced (search_arxiv w problem 15 theory_cats)).
Proof.
  unfold theory_main. rewrite prompt_format_raises.
  destruct (search_arxiv w problem 15 theory_cats) as [[papers t]|e];
    [|reflexivity].
  destruct search_only; reflexivity.
Qed.

(** C9: the analysis never falls back to the template.  Whenever the arXiv
    search of [main] returns, [main] raises KeyError while it formats the
    analysis prompt, whose text holds the fields [{-1/2}] and [{-s/(2s+d)}],
    so the lines that choose the template are never run and no document is
    written; and [generate_theory_tex] itself, given no analysis text, leaves
    the analysis section empty, without any of the three markers.  The
    Related Work list of [generate_theory_tex] is as claimed: the items of
    the first min(10, length) papers in order. *)
Theorem theory_main_raises_before_fallback
        (w : world) (today problem topic : string) (output : option string)
        (arxiv_found : list paper * trace) :
  search_arxiv w problem 15 theory_cats = Ok arxiv_found ->
  theory_main w today problem topic output false
  = (Raise KeyError, snd arxiv_found)
  /\ files_written (snd (theory_main w today problem topic output false)) = []
  /\ (forall analysis papers cs,
        Forall2 shows papers cs ->
        theory_tex today problem analysis papers
        = Ok (document today (tex_escape_problem problem) (Py.str analysis)
                (items_text (firstn 10 cs)))
        /\ List.length (firstn 10 cs) = Nat.min 10 (List.length papers))
  /\ (exists doc,
        theory_tex "2026-11-03" "sparse regression" (VStr "")
          [sparse_regression_paper] = Ok doc
        /\ PyStr.contains "\section{Problem Formulation}" doc = false
        /\ PyStr.contains "\section{Identifiability}" doc = false
        /\ PyStr.contains "\section{Convergence Analysis}" doc = false).
Proof.
  intros Hfound.
  assert (E : theory_main w today problem topic output false
              = (Raise KeyError, snd arxiv_found)).
  { rewrite theory_main_stops, Hfound. destruct arxiv_found; reflexivity. }
  split; [exact E|]. split; [|split].
  - rewrite E. cbn [snd].
    destruct (search_arxiv_trace _ _ _ _ _ Hfound) as [-> | (e & ->)];
      reflexivity.
  - intros analysis papers cs Hshows. split.
    + exact (theory_tex_document _ _ _ _ _ Hshows).
    + rewrite length_firstn, (Forall2_length Hshows). reflexivity.
  - eexists. split; [vm_compute; reflexivity|].
    split; [|split]; vm_compute; reflexivity.
Qed.

Lemma theory_main_raises_before_fallback_witness :
  fst (theory_main sample_world "2026-11-03" "sparse regression" "default"
         None false)
  = Raise KeyError.
Proof.
  rewrite (proj1 (theory_main_raises_before_fallback
                    sample_world "2026-11-03" "sparse regression" "default"
                    None _ eq_refl)).
  reflexivity.
Defined.

(* ====================================================================== *)
(** * Further properties of the code                                       *)
(* ====================================================================== *)

(** ** theory_explorer.py: [main] *)

(** X1: [main] of theory_explorer.py never renders anything.  When the query
    of the arXiv search cannot be encoded, it raises the exception of
    [urlencode] before any request; otherwise, without --search-only, it
    raises KeyError while it formats the analysis prompt, after the arXiv
    search and before the Perplexity query.  In every case the only request
    it can have sent is the one to arXiv and no directory or file is
    written. *)
Theorem theory_main_never_renders
        (w : world) (today problem topic : string) (output : option string)
        (search_only : bool) :
  fst (theory_main w today problem topic output search_only)
  = match search_arxiv w problem 15 theory_cats with
    | Raise e => Raise e
    | Ok _ => if search_only then Ok None else Raise KeyError
    end
  /\ snd (theory_main w today problem topic output search_only)
     = traced (search_arxiv w problem 15 theory_cats)
  /\ http_calls (snd (theory_main w today problem topic output search_only))
     = match search_arxiv w problem 15 theory_cats with
       | Raise _ => []
       | Ok _ => [arxiv_url]
       end
  /\ files_written (snd (theory_main w today problem topic output search_only))
     = [].
Proof.
  rewrite theory_main_stops. cbn [fst snd].
  split; [reflexivity|]. split; [reflexivity|].
  destruct (search_arxiv w problem 15 theory_cats) as [[papers t]|e] eqn:Hs;
    [|split; reflexivity].
  cbn [traced].
  destruct (search_arxiv_trace _ _ _ _ _ Hs) as [H | (e & H)];
    cbn [snd] in H; rewrite H; split; reflexivity.
Qed.

(** ** theory_explorer.py: escaping of titles *)

Lemma tex_safe_text_app (a b : string) :
  tex_safe_text (a ++ b) = tex_safe_text a ++ tex_safe_text b.
Proof.
  induction a as [|c a IH]; cbn [append tex_safe_text]; [reflexivity|].
  rewrite IH. symmetry. apply append_assoc.
Qed.

Lemma append_length (a b : string) :
  String.length (a ++ b) = String.length a + String.length b.
Proof. induction a; simpl; congruence. Qed.

Lemma tex_safe_text_length (t : string) :
  String.length (tex_safe_text t) = String.length t + specials t.
Proof.
  induction t as [|c t IH]; [reflexivity|].
  cbn [tex_safe_text specials String.length]. rewrite append_length, IH.
  unfold tex_safe.
  destruct (Ascii.eqb c "_"); [simpl; lia|].
  destruct (Ascii.eqb c "&"); simpl; lia.
Qed.

Lemma tex_safe_text_specials (t : string) :
  specials (tex_safe_text t) = specials t.
Proof.
  assert (Happ : forall a b, specials (a ++ b) = specials a + specials b).
  { induction a as [|c a IH]; intros b; cbn [append specials]; [reflexivity|].
    rewrite IH. lia. }
  induction t as [|c t IH]; [reflexivity|].
  cbn [tex_safe_text specials]. rewrite Happ, IH. f_equal.
  unfold tex_safe.
  destruct (Ascii.eqb_spec c "_") as [->|Hu]; [reflexivity|].
  destruct (Ascii.eqb_spec c "&") as [->|Ha]; [reflexivity|].
  cbn [specials].
  destruct (Ascii.eqb_spec c "_"); [contradiction|].
  destruct (Ascii.eqb_spec c "&"); [contradiction|]. reflexivity.
Qed.

(** X2: the two replacements that [generate_theory_tex] applies to a title
    act character by character: an underscore becomes backslash-underscore,
    an ampersand backslash-ampersand, every other character (a backslash
    included) is kept, so the escaping distributes over concatenation and
    adds one character per underscore or ampersand; escaping an escaped
    title again adds as many characters once more, so it is not idempotent
    on a title that has one. *)
Theorem title_escaping_is_characterwise (t u : string) :
  tex_escape_title t = tex_safe_text t
  /\ tex_escape_title (t ++ u) = tex_escape_title t ++ tex_escape_title u
  /\ String.length (tex_escape_title t) = String.length t + specials t
  /\ String.length (tex_escape_title (tex_escape_title t))
     = String.length t + 2 * specials t.
Proof.
  rewrite !tex_escape_title_safe. split; [reflexivity|].
  split; [apply tex_safe_text_app|].
  split; [apply tex_safe_text_length|].
  rewrite !tex_safe_text_length, tex_safe_text_specials. lia.
Qed.

(** ** search_papers.py: [generate_bibtex] over a list *)

Lemma mapM_app_raise {A B : Type} (f : A -> result B) (good : list A) (a : A)
      (rest : list A) (e : exn) :
  (forall x, In x good -> exists b, f x = Ok b) ->
  f a = Raise e ->
  mapM f (good ++ a :: rest) = Raise e.
Proof.
  induction good as [|g good IH]; intros Hgood Ha; cbn [app mapM].
  - rewrite Ha. reflexivity.
  - destruct (Hgood g (or_introl eq_refl)) as (b & ->). cbn [bind].
    rewrite IH; [reflexivity | | exact Ha].
    intros x Hx. apply Hgood. right. exact Hx.
Qed.

(** X3: [generate_bibtex] is all or nothing.  When every paper has an entry,
    the result is these entries in order, joined by a blank line (the empty
    string for no paper); when some paper has none, the exception of the
    first such paper is raised and the entries of all the others are lost. *)
Theorem generate_bibtex_all_or_nothing (papers : list paper) :
  ((forall p, In p papers -> exists entry, bibtex_entry p = Ok entry) ->
   exists entries,
     Forall2 (fun p entry => bibtex_entry p = Ok entry) papers entries
     /\ generate_bibtex papers = Ok (String.concat blank_line entries))
  /\ (forall good p rest e,
        papers = (good ++ p :: rest)%list ->
        (forall q, In q good -> exists entry, bibtex_entry q = Ok entry) ->
        bibtex_entry p = Raise e ->
        generate_bibtex papers = Raise e).
Proof.
  split.
  - intros Hall. destruct (mapM_total bibtex_entry papers Hall) as (entries & Hm).
    exists entries. split; [apply mapM_Ok_Forall2; exact Hm|].
    unfold generate_bibtex. rewrite Hm. reflexivity.
  - intros good p rest e -> Hgood Hp. unfold generate_bibtex.
    rewrite (mapM_app_raise bibtex_entry good p rest e Hgood Hp). reflexivity.
Qed.

Lemma generate_bibtex_all_or_nothing_witness :
  generate_bibtex [lovelace2020; anonymous_paper; undated_paper] = Raise IndexError
  /\ exists entries,
       List.length entries = 2
       /\ generate_bibtex [lovelace2020; undated_paper]
          = Ok (String.concat blank_line entries).
Proof.
  split.
  - apply (proj2 (generate_bibtex_all_or_nothing
                    [lovelace2020; anonymous_paper; undated_paper])
                 [lovelace2020] anonymous_paper [undated_paper] IndexError).
    + reflexivity.
    + intros q [<-|[]]. eexists. vm_compute. reflexivity.
    + reflexivity.
  - destruct (proj1 (generate_bibtex_all_or_nothing [lovelace2020; undated_paper]))
      as (entries & Hall & Hgen).
    + intros p [<-|[<-|[]]]; eexists; vm_compute; reflexivity.
    + exists entries. split; [|exact Hgen].
      apply Forall2_length in Hall. rewrite <- Hall. reflexivity.
Defined.

(** ** theory_explorer.py: what [generate_theory_tex] leaves on disk *)

(** X4: when the papers can be listed but [generate_bibtex] raises on them
    (an empty authors list is enough, wherever the paper stands),
    [generate_theory_tex] raises the same exception after it has created the
    directory, written the whole document to theoretical_analysis.tex and
    truncated related_papers.bib, which is left empty. *)
Theorem tex_written_before_bibtex_raises
        (today problem : string) (analysis : pyval) (papers : list paper)
        (cs : list citation) (dir : path) (e : exn) :
  Forall2 shows papers cs ->
  generate_bibtex papers = Raise e ->
  generate_theory_tex today problem analysis papers dir
  = (Raise e,
     [ Mkdir dir;
       WriteFile (Child dir "theoretical_analysis.tex")
         (document today (tex_escape_problem problem) (Py.str analysis)
            (items_text (firstn 10 cs)));
       WriteFile (Child dir "related_papers.bib") "" ]).
Proof.
  intros Hshows Hbib. unfold generate_theory_tex.
  rewrite (theory_tex_document today problem analysis papers cs Hshows), Hbib.
  reflexivity.
Qed.

Lemma tex_written_before_bibtex_raises_witness :
  files_written
    (snd (generate_theory_tex "2026-11-03" "sparse regression" (VStr "")
            [anonymous_paper] (Path "out")))
  = [Child (Path "out") "theoretical_analysis.tex";
     Child (Path "out") "related_papers.bib"]
  /\ fst (generate_theory_tex "2026-11-03" "sparse regression" (VStr "")
            [anonymous_paper] (Path "out"))
     = Raise IndexError.
Proof.
  rewrite (tex_written_before_bibtex_raises
             "2026-11-03" "sparse regression" (VStr "")
             [anonymous_paper] [anonymous_citation] (Path "out") IndexError).
  - split; reflexivity.
  - constructor; [|constructor]. split; [reflexivity|]. split; reflexivity.
  - reflexivity.
Defined.

Lemma paper_list_from_raises (pre : list paper) (cs : list citation)
      (p : paper) (rest : list paper) (e : exn) :
  Forall2 shows pre cs -> paper_item p = Raise e ->
  forall acc, paper_list_from acc (pre ++ p :: rest) = Raise e.
Proof.
  intros Hpre Hp. induction Hpre as [|q c pre cs Hqc _ IH]; intros acc;
    cbn [app paper_list_from].
  - rewrite Hp. reflexivity.
  - rewrite (paper_item_shows q c Hqc). cbn [bind]. apply IH.
Qed.

(** X5: when one of the first ten papers cannot be listed (its title is not
    a string, or one of its first two authors is not), and the papers before
    it can, [generate_theory_tex] raises the exception of this paper and
    writes nothing: no directory, no document, no bibliography. *)
Theorem nothing_written_when_listing_raises
        (today problem : string) (analysis : pyval) (pre : list paper)
        (cs : list citation) (p : paper) (rest : list paper) (dir : path)
        (e : exn) :
  Forall2 shows pre cs ->
  List.length pre < 10 ->
  paper_item p = Raise e ->
  generate_theory_tex today problem analysis (pre ++ p :: rest) dir
  = (Raise e, []).
Proof.
  intros Hpre Hlen Hp. unfold generate_theory_tex, theory_tex, paper_list.
  rewrite firstn_app, (firstn_all2 pre (n := 10)) by lia.
  destruct (10 - List.length pre) as [|k] eqn:Hk; [lia|].
  cbn [firstn].
  rewrite (paper_list_from_raises pre cs p (firstn k rest) e Hpre Hp).
  reflexivity.
Qed.

Lemma nothing_written_when_listing_raises_witness :
  generate_theory_tex "2026-11-03" "sparse regression" (VStr "")
    [sparse_regression_paper; nameless_author_paper; lovelace2020] (Path "out")
  = (Raise TypeError, []).
Proof.
  apply (nothing_written_when_listing_raises
           "2026-11-03" "sparse regression" (VStr "")
           [sparse_regression_paper] [sparse_regression_citation]
           nameless_author_paper [lovelace2020] (Path "out") TypeError).
  - constructor; [|constructor]. split; [reflexivity|]. split; reflexivity.
  - simpl. lia.
  - reflexivity.
Defined.

(** ** search_papers.py: the papers of the arXiv adapter *)

Lemma arxiv_entry_fields (entry : element) (p : paper) :
  arxiv_entry entry = Ok p ->
  exists t s authors i pub arxiv_id,
    Py.last (PyStr.split_on "/" i) = Ok arxiv_id
    /\ p = [ ("title", VStr (PyStr.replace newline " " (PyStr.strip t)));
             ("authors", VList (firstn 3 authors));
             ("abstract", VStr (PyStr.take 500 (PyStr.strip s)));
             ("arxiv_id", VStr arxiv_id);
             ("url", VStr ("https://arxiv.org/abs/" ++ arxiv_id));
             ("pdf", VStr ("https://arxiv.org/pdf/" ++ arxiv_id));
             ("categories",
              VList (firstn 3 (map (fun cat => ET.get cat "term")
                                   (ET.findall entry "category"))));
             ("date", VStr (PyStr.take 10 pub));
             ("source", VStr "arXiv") ].
Proof.
  unfold arxiv_entry. intros H. bind_inv H.
  injection H as <-. do 6 eexists. split; [|reflexivity]. eassumption.
Qed.

Lemma replace_removes (old : ascii) (new s : string) :
  Py.has_char old new = false ->
  Py.has_char old (PyStr.replace old new s) = false.
Proof.
  intros Hnew.
  assert (Happ : forall a b, Py.has_char old (a ++ b)
                             = Py.has_char old a || Py.has_char old b).
  { induction a as [|c a IH]; intros b; cbn [append Py.has_char]; [reflexivity|].
    rewrite IH. apply orb_assoc. }
  induction s as [|c s IH]; [reflexivity|]. cbn [PyStr.replace].
  destruct (Ascii.eqb c old) eqn:Hc.
  - rewrite Happ, Hnew, IH. reflexivity.
  - cbn [Py.has_char]. rewrite Hc, IH. reflexivity.
Qed.

Lemma has_char_snoc (sep c : ascii) (tok : string) :
  Py.has_char sep (tok ++ String c "")
  = Py.has_char sep tok || Ascii.eqb c sep.
Proof.
  induction tok as [|c' tok IH]; cbn [append Py.has_char].
  - apply orb_false_r.
  - rewrite IH. apply orb_assoc.
Qed.

Lemma split_on_from_free (sep : ascii) (s tok : string) :
  Py.has_char sep tok = false ->
  Forall (fun x => Py.has_char sep x = false) (PyStr.split_on_from sep tok s).
Proof.
  revert tok; induction s as [|c s IH]; intros tok Htok; cbn [PyStr.split_on_from].
  - constructor; [exact Htok | constructor].
  - destruct (Ascii.eqb c sep) eqn:Hc.
    + constructor; [exact Htok | apply IH; reflexivity].
    + apply IH. rewrite has_char_snoc, Htok, Hc. reflexivity.
Qed.

Lemma last_In {A : Type} (l : list A) (x : A) : Py.last l = Ok x -> In x l.
Proof.
  induction l as [|a l IH]; [discriminate|].
  destruct l as [|b l].
  - intros H. injection H as <-. left. reflexivity.
  - intros H. right. apply IH. exact H.
Qed.

(** X6: every paper of the arXiv adapter has a title without a newline, an
    identifier without a slash from which both the abs and the pdf address
    are built, a date of at most ten characters and no year field. *)
Theorem arxiv_paper_fields
        (w : world) (query : string) (max_results : Z)
        (categories : list string) (p : paper) :
  In p (found (search_arxiv w query max_results categories)) ->
  exists title arxiv_id date,
    dict_get p "title" = Some (VStr title)
    /\ Py.has_char newline title = false
    /\ dict_get p "arxiv_id" = Some (VStr arxiv_id)
    /\ Py.has_char "/" arxiv_id = false
    /\ dict_get p "url" = Some (VStr ("https://arxiv.org/abs/" ++ arxiv_id))
    /\ dict_get p "pdf" = Some (VStr ("https://arxiv.org/pdf/" ++ arxiv_id))
    /\ dict_get p "date" = Some (VStr date)
    /\ String.length date <= 10
    /\ dict_get p "year" = None.
Proof.
  intros Hin. apply search_arxiv_In in Hin as (root & entry & _ & _ & Hp).
  apply arxiv_entry_fields in Hp
    as (t & s & authors & i & pub & arxiv_id & Hid & ->).
  do 3 eexists. split; [reflexivity|].
  split; [apply replace_removes; reflexivity|].
  split; [reflexivity|].
  split.
  { apply last_In in Hid.
    pose proof (split_on_from_free "/" i "" eq_refl) as Hall.
    rewrite Forall_forall in Hall. apply Hall. exact Hid. }
  split; [reflexivity|]. split; [reflexivity|]. split; [reflexivity|].
  split; [apply take_length | reflexivity].
Qed.

Lemma arxiv_paper_fields_witness :
  exists title arxiv_id date,
    dict_get sparse_regression_paper "title" = Some (VStr title)
    /\ Py.has_char newline title = false
    /\ dict_get sparse_regression_paper "arxiv_id" = Some (VStr arxiv_id)
    /\ Py.has_char "/" arxiv_id = false
    /\ dict_get sparse_regression_paper "url"
       = Some (VStr ("https://arxiv.org/abs/" ++ arxiv_id))
    /\ dict_get sparse_regression_paper "pdf"
       = Some (VStr ("https://arxiv.org/pdf/" ++ arxiv_id))
    /\ dict_get sparse_regression_paper "date" = Some (VStr date)
    /\ String.length date <= 10
    /\ dict_get sparse_regression_paper "year" = None.
Proof.
  apply (arxiv_paper_fields sample_world "sparse regression" 10 ["stat.ML"]).
  vm_compute. left. reflexivity.
Defined.

(** X7: the year that [generate_bibtex] gives a paper of the arXiv adapter is
    the first four characters of its date, and 2024 when the date is
    empty. *)
Theorem arxiv_paper_year
        (w : world) (query : string) (max_results : Z)
        (categories : list string) (p : paper) :
  In p (found (search_arxiv w query max_results categories)) ->
  exists date,
    dict_get p "date" = Some (VStr date)
    /\ bibtex_year p
       = Ok (VStr (if PyStr.is_empty date then "2024" else PyStr.take 4 date)).
Proof.
  intros Hin. apply search_arxiv_In in Hin as (root & entry & _ & _ & Hp).
  apply arxiv_entry_fields in Hp
    as (t & s & authors & i & pub & arxiv_id & Hid & ->).
  eexists. split; [reflexivity|].
  unfold bibtex_year, Py.get_or. cbn [dict_get String.eqb Ascii.eqb Bool.eqb].
  cbn [Py.or_else Py.truthy Py.slice_to bind].
  destruct (PyStr.take 10 pub) as [|c d]; reflexivity.
Qed.

Lemma arxiv_paper_year_witness :
  exists date,
    dict_get sparse_regression_paper "date" = Some (VStr date)
    /\ bibtex_year sparse_regression_paper
       = Ok (VStr (if PyStr.is_empty date then "2024" else PyStr.take 4 date)).
Proof.
  apply (arxiv_paper_year sample_world "sparse regression" 10 ["stat.ML"]).
  vm_compute. left. reflexivity.
Defined.

Lemma mapM_Ok_each {A B : Type} (f : A -> result B) (l : list A) (bs : list B) :
  mapM f l = Ok bs -> forall a, In a l -> exists b, f a = Ok b.
Proof.
  intros H; apply mapM_Ok_Forall2 in H.
  induction H as [|a b l bs Hab _ IH]; intros x [].
  - subst x. exists b. exact Hab.
  - apply IH. assumption.
Qed.

Lemma has_text_receiver (o : option element) (t : option string) (s : string) :
  ET.text_of o = Ok t -> ET.receiver t = Ok s -> has_text o = true.
Proof.
  destruct o as [[tg att [x|] ch]|]; cbn; intros H1 H2; try discriminate;
    try reflexivity.
  injection H1 as <-. discriminate H2.
Qed.

Lemma has_text_subscripted (o : option element) (t : option string) (s : string) :
  ET.text_of o = Ok t -> ET.subscripted t = Ok s -> has_text o = true.
Proof.
  destruct o as [[tg att [x|] ch]|]; cbn; intros H1 H2; try discriminate;
    try reflexivity.
  injection H1 as <-. discriminate H2.
Qed.

Lemma has_text_inv (o : option element) :
  has_text o = true -> exists el t, o = Some el /\ ET.text el = Some t.
Proof.
  destruct o as [[tg att [x|] ch]|]; cbn; intros H; try discriminate.
  eexists _, x. split; reflexivity.
Qed.

Lemma arxiv_entry_Ok_ok (entry : element) (p : paper) :
  arxiv_entry entry = Ok p -> arxiv_entry_ok entry = true.
Proof.
  unfold arxiv_entry, arxiv_entry_ok. intros H. bind_inv H.
  repeat (apply andb_true_intro; split);
    try (eapply has_text_receiver; eassumption);
    try (eapply has_text_subscripted; eassumption).
  apply forallb_forall. intros author Hin.
  match goal with
  | Hm : mapM _ (ET.findall entry "author") = Ok _ |- _ =>
      destruct (mapM_Ok_each _ _ _ Hm author Hin) as (b & Hb)
  end.
  cbn beta in Hb. destruct (ET.find author "name"); [reflexivity | discriminate Hb].
Qed.

Lemma arxiv_entry_ok_Ok (entry : element) :
  arxiv_entry_ok entry = true -> exists p, arxiv_entry entry = Ok p.
Proof.
  unfold arxiv_entry_ok. intros H.
  apply andb_prop in H as (H & Hpub). apply andb_prop in H as (H & Hid).
  apply andb_prop in H as (H & Hauthors). apply andb_prop in H as (Htitle & Hsum).
  apply has_text_inv in Htitle as (title & tt & Ht & Htt).
  apply has_text_inv in Hsum as (summary & st & Hs & Hst).
  apply has_text_inv in Hid as (id & it & Hi & Hit).
  apply has_text_inv in Hpub as (pub & pt & Hp & Hpt).
  apply (arxiv_entry_total entry title summary id pub tt st it pt); try assumption.
  intros author Hin. rewrite forallb_forall in Hauthors.
  specialize (Hauthors author Hin).
  destruct (ET.find author "name"); [discriminate | discriminate Hauthors].
Qed.

(** X8: the arXiv adapter turns an entry into a paper exactly when the entry
    has a title, a summary, an id and a published element, each with a text,
    and every author element of it has a name element (authors and
    categories themselves may be missing).  Hence, of a feed that was fetched,
    it returns one paper per entry when all entries are such, and no paper at
    all otherwise. *)
Theorem arxiv_entry_parses_iff
        (w : world) (query : string) (max_results : Z)
        (categories : list string) (encoded : string) (root : element)
        (entry : element) :
  urlencode w (arxiv_items (arxiv_params query max_results categories)) = Ok encoded ->
  arxiv_api w (arxiv_params query max_results categories) = Ok root ->
  ((exists p, arxiv_entry entry = Ok p) <-> arxiv_entry_ok entry = true)
  /\ List.length (found (search_arxiv w query max_results categories))
     = if forallb arxiv_entry_ok (ET.findall root "entry")
       then List.length (ET.findall root "entry")
       else 0.
Proof.
  intros Hurl Hroot. split.
  - split; [intros (p & Hp); exact (arxiv_entry_Ok_ok entry p Hp)
           | apply arxiv_entry_ok_Ok].
  - rewrite (search_arxiv_encoded w query max_results categories encoded Hurl).
    unfold search_arxiv_try. rewrite Hroot. cbn [bind].
    destruct (mapM arxiv_entry (ET.findall root "entry")) as [ps|e] eqn:Hm.
    + assert (Hall : forallb arxiv_entry_ok (ET.findall root "entry") = true).
      { apply forallb_forall. intros x Hx.
        destruct (mapM_Ok_each _ _ _ Hm x Hx) as (p & Hp).
        exact (arxiv_entry_Ok_ok x p Hp). }
      rewrite Hall. cbn [found]. exact (mapM_Ok_length _ _ _ Hm).
    + destruct (forallb arxiv_entry_ok (ET.findall root "entry")) eqn:Hall;
        [|reflexivity].
      rewrite forallb_forall in Hall.
      destruct (mapM_total arxiv_entry (ET.findall root "entry")) as (ps & Hps).
      * intros x Hx. apply arxiv_entry_ok_Ok. apply Hall. exact Hx.
      * rewrite Hps in Hm. discriminate Hm.
Qed.

Lemma arxiv_entry_parses_iff_witness :
  List.length (found (search_arxiv sample_world "sparse regression" 10 ["stat.ML"])) = 2
  /\ List.length (found (search_arxiv bad_entry_world "sparse regression" 10 ["stat.ML"])) = 0.
Proof.
  split.
  - exact (proj2 (arxiv_entry_parses_iff
                    sample_world "sparse regression" 10 ["stat.ML"]
                    "query=sparse+regression" sample_feed entry_without_summary
                    eq_refl eq_refl)).
  - exact (proj2 (arxiv_entry_parses_iff
                    bad_entry_world "sparse regression" 10 ["stat.ML"]
                    "query=sparse+regression" feed_with_bad_entry
                    entry_without_summary eq_refl eq_refl)).
Defined.

(** ** search_papers.py: the records of Semantic Scholar *)

Lemma get_Ok_is_dict (v : pyval) (k : string) (default r : pyval) :
  Py.get v k default = Ok r -> is_dict v = true.
Proof. destruct v; cbn; intros H; try discriminate H; reflexivity. Qed.

Lemma is_dict_get (v : pyval) (k : string) (default : pyval) :
  is_dict v = true -> exists r, Py.get v k default = Ok r.
Proof. destruct v; cbn; intros H; try discriminate H. eexists; reflexivity. Qed.

Lemma s2_authors_read (field first3 : pyval) (items authors : list pyval) :
  Py.slice_to 3 field = Ok first3 ->
  Py.iter first3 = Ok items ->
  mapM (fun a => Py.get a "name" (VStr "")) items = Ok authors ->
  s2_authors_ok field = true.
Proof.
  intros Hs Hi Hm.
  destruct field as [| | |s|l|]; try discriminate Hs;
    cbn in Hs; injection Hs as <-; cbn in Hi; injection Hi as <-.
  - cbn [s2_authors_ok]. destruct s as [|c s]; [reflexivity|].
    cbn in Hm. discriminate Hm.
  - cbn [s2_authors_ok]. apply forallb_forall. intros a Ha.
    destruct (mapM_Ok_each _ _ _ Hm a Ha) as (b & Hb).
    exact (get_Ok_is_dict _ _ _ _ Hb).
Qed.

Lemma s2_authors_readable (field : pyval) :
  s2_authors_ok field = true ->
  exists first3 items authors,
    Py.slice_to 3 field = Ok first3
    /\ Py.iter first3 = Ok items
    /\ mapM (fun a => Py.get a "name" (VStr "")) items = Ok authors.
Proof.
  destruct field as [| | |s|l|]; cbn [s2_authors_ok]; intros H;
    try discriminate H.
  - destruct s; [|discriminate H].
    exists (VStr ""), [], []. repeat split.
  - rewrite forallb_forall in H.
    destruct (mapM_total (fun a => Py.get a "name" (VStr "")) (firstn 3 l))
      as (authors & Hm).
    { intros a Ha. apply is_dict_get. apply H. exact Ha. }
    exists (VList (firstn 3 l)), (firstn 3 l), authors. repeat split. exact Hm.
Qed.

Lemma s2_abstract_read (field r : pyval) :
  Py.slice_to 500 (if Py.truthy field then field else VStr "") = Ok r ->
  negb (Py.truthy field) || sliceable field = true.
Proof.
  destruct (Py.truthy field); [|reflexivity].
  destruct field; cbn; intros H; try discriminate H; reflexivity.
Qed.

Lemma s2_abstract_readable (field : pyval) :
  negb (Py.truthy field) || sliceable field = true ->
  exists r, Py.slice_to 500 (if Py.truthy field then field else VStr "") = Ok r.
Proof.
  destruct (Py.truthy field); cbn [negb orb].
  - destruct field; cbn; intros H; try discriminate H; eexists; reflexivity.
  - intros _. eexists; reflexivity.
Qed.

Lemma s2_paper_Ok_ok (raw : pyval) (p : paper) :
  s2_paper raw = Ok p -> s2_record_ok raw = true.
Proof.
  unfold s2_paper. intros H.
  destruct raw as [| | | | |d]; try discriminate H.
  cbn beta iota delta [bind Py.get] in H. bind_inv H.
  cbn [s2_record_ok]. repeat (apply andb_true_intro; split).
  - eapply s2_authors_read; eassumption.
  - eapply s2_abstract_read; eassumption.
  - eapply get_Ok_is_dict; eassumption.
Qed.

Lemma s2_record_ok_Ok (raw : pyval) :
  s2_record_ok raw = true -> exists p, s2_paper raw = Ok p.
Proof.
  destruct raw as [| | | | |d]; cbn [s2_record_ok]; intros H;
    try discriminate H.
  apply andb_prop in H as (H & Hpdf). apply andb_prop in H as (Hauthors & Habs).
  apply s2_authors_readable in Hauthors as (first3 & items & authors & Hs & Hi & Hm).
  apply s2_abstract_readable in Habs as (abstract & Ha).
  apply (is_dict_get _ "url" (VStr "")) in Hpdf as (pdf & Hp).
  unfold s2_paper. cbn beta iota delta [bind Py.get].
  rewrite Hs. cbn beta iota delta [bind]. rewrite Hi. cbn beta iota delta [bind].
  rewrite Hm. cbn beta iota delta [bind]. rewrite Ha. cbn beta iota delta [bind].
  rewrite Hp. eexists; reflexivity.
Qed.

Lemma search_semantic_scholar_listing (w : world) (query : string)
      (max_results : Z) (r : list (string * pyval)) (items : list pyval) :
  s2_api w (s2_params w query max_results) = Ok (VDict r) ->
  Py.get_or r "data" (VList []) = VList items ->
  search_semantic_scholar_try w (s2_params w query max_results)
  = mapM s2_paper items.
Proof.
  intros Hr Hitems. unfold search_semantic_scholar_try.
  rewrite Hr. cbn [bind Py.get]. rewrite Hitems. reflexivity.
Qed.

(** X9: the Semantic Scholar adapter turns a record of the listing into a
    paper exactly when the record is an object whose authors are a list with
    objects as its first three items (or the empty string, or are missing),
    whose abstract is
    missing, false, a string or a list, and whose openAccessPdf is an object
    (or is missing).  Hence, of a listing that was fetched, it returns one
    paper per record when all records are such, and no paper at all
    otherwise. *)
Theorem s2_record_read_iff
        (w : world) (query : string) (max_results : Z)
        (encoded : string) (r : list (string * pyval)) (items : list pyval)
        (raw : pyval) :
  urlencode w (s2_items (s2_params w query max_results)) = Ok encoded ->
  s2_api w (s2_params w query max_results) = Ok (VDict r) ->
  Py.get_or r "data" (VList []) = VList items ->
  ((exists p, s2_paper raw = Ok p) <-> s2_record_ok raw = true)
  /\ List.length (found (search_semantic_scholar w query max_results))
     = if forallb s2_record_ok items then List.length items else 0.
Proof.
  intros Hurl Hr Hitems. split.
  - split; [intros (p & Hp); exact (s2_paper_Ok_ok raw p Hp)
           | apply s2_record_ok_Ok].
  - rewrite (search_semantic_scholar_encoded w query max_results encoded Hurl).
    rewrite (search_semantic_scholar_listing w query max_results r items Hr Hitems).
    destruct (mapM s2_paper items) as [ps|e] eqn:Hm.
    + assert (Hall : forallb s2_record_ok items = true).
      { apply forallb_forall. intros x Hx.
        destruct (mapM_Ok_each _ _ _ Hm x Hx) as (p & Hp).
        exact (s2_paper_Ok_ok x p Hp). }
      rewrite Hall. cbn [found]. exact (mapM_Ok_length _ _ _ Hm).
    + destruct (forallb s2_record_ok items) eqn:Hall; [|reflexivity].
      rewrite forallb_forall in Hall.
      destruct (mapM_total s2_paper items) as (ps & Hps).
      * intros x Hx. apply s2_record_ok_Ok. apply Hall. exact Hx.
      * rewrite Hps in Hm. discriminate Hm.
Qed.

Lemma s2_record_read_iff_witness :
  List.length (found (search_semantic_scholar sample_world "sparse regression" 10)) = 1
  /\ List.length (found (search_semantic_scholar null_pdf_world "sparse regression" 10)) = 0.
Proof.
  split.
  - refine (proj2 (s2_record_read_iff sample_world "sparse regression" 10
                     _ _ _ VNone eq_refl eq_refl eq_refl)).
  - refine (proj2 (s2_record_read_iff null_pdf_world "sparse regression" 10
                     _ _ _ VNone eq_refl eq_refl eq_refl)).
Defined.

(** X10: one record whose openAccessPdf is present and is not an object, a
    null for instance, makes the Semantic Scholar adapter return no paper at
    all, with one diagnostic: the papers of the other records are lost. *)
Theorem s2_null_pdf_drops_all
        (w : world) (query : string) (max_results : Z)
        (encoded : string) (r : list (string * pyval)) (items : list pyval)
        (record : list (string * pyval)) (v : pyval) :
  urlencode w (s2_items (s2_params w query max_results)) = Ok encoded ->
  s2_api w (s2_params w query max_results) = Ok (VDict r) ->
  Py.get_or r "data" (VList []) = VList items ->
  In (VDict record) items ->
  dict_get record "openAccessPdf" = Some v ->
  is_dict v = false ->
  exists e,
    search_semantic_scholar w query max_results
    = Ok ([], [HttpCall s2_url; Stderr (SearchError "Semantic Scholar" e)]).
Proof.
  intros Hurl Hr Hitems Hin Hv Hnot.
  assert (Hbad : exists e, s2_paper (VDict record) = Raise e).
  { destruct (s2_paper (VDict record)) as [p|e] eqn:Hp; [|exists e; reflexivity].
    apply s2_paper_Ok_ok in Hp. cbn [s2_record_ok] in Hp.
    apply andb_prop in Hp as (_ & Hp).
    rewrite (get_or_Some _ _ _ _ Hv), Hnot in Hp. discriminate Hp. }
  destruct Hbad as (e & He).
  rewrite (search_semantic_scholar_encoded w query max_results encoded Hurl).
  rewrite (search_semantic_scholar_listing w query max_results r items Hr Hitems).
  destruct (mapM_raises s2_paper items (VDict record) e Hin He) as (e' & ->).
  exists e'. reflexivity.
Qed.

Lemma s2_null_pdf_drops_all_witness :
  exists e,
    search_semantic_scholar null_pdf_world "sparse regression" 10
    = Ok ([], [HttpCall s2_url; Stderr (SearchError "Semantic Scholar" e)]).
Proof.
  refine (s2_null_pdf_drops_all null_pdf_world "sparse regression" 10
            _ _ _ [ ("title", VStr "Basis pursuit");
                  ("authors", VList [VDict [("name", VStr "David Donoho")]]);
                  ("year", VInt 1998);
                  ("openAccessPdf", VNone) ] VNone
            eq_refl eq_refl eq_refl _ eq_refl eq_refl).
  right. left. reflexivity.
Defined.

(** X11: the year that [generate_bibtex] gives a paper of the Semantic
    Scholar adapter is the year of the upstream record when that is present
    and true, and 2024 otherwise (a missing, null or zero year), since such a
    paper has no date. *)
Theorem s2_paper_year
        (w : world) (query : string) (max_results : Z) (p : paper) :
  In p (found (search_semantic_scholar w query max_results)) ->
  exists d,
    s2_paper (VDict d) = Ok p
    /\ dict_get p "date" = None
    /\ bibtex_year p
       = Ok (if Py.truthy (Py.get_or d "year" VNone)
             then Py.get_or d "year" VNone
             else VStr "2024").
Proof.
  intros Hin. apply search_semantic_scholar_In in Hin as (data & raw & _ & Hp).
  pose proof Hp as Hshape.
  apply s2_paper_shape in Hshape
    as (d & authors & abstract & pdf & n & -> & Hpeq & _).
  exists d. split; [exact Hp|]. subst p. split; [reflexivity|].
  unfold bibtex_year, Py.get_or at 1 2.
  cbn [dict_get String.eqb Ascii.eqb Bool.eqb].
  unfold Py.or_else at 1.
  destruct (Py.truthy (Py.get_or d "year" VNone)); reflexivity.
Qed.

Lemma s2_paper_year_witness :
  bibtex_year hopper2019 = Ok (VInt 2019).
Proof.
  destruct (s2_paper_year sample_world "sparse regression" 10 hopper2019)
    as (d & Hd & _ & Hy).
  - vm_compute. left. reflexivity.
  - reflexivity.
Defined.

(** ** search_papers.py: the requests of a run *)

Lemma http_calls_app (t u : trace) :
  http_calls (t ++ u)%list = (http_calls t ++ http_calls u)%list.
Proof.
  induction t as [|ev t IH]; [reflexivity|].
  destruct ev; cbn [app http_calls]; rewrite IH; reflexivity.
Qed.

Lemma search_arxiv_calls (w : world) (query : string) (max_results : Z)
      (categories : list string) (r : list paper * trace) :
  search_arxiv w query max_results categories = Ok r ->
  http_calls (snd r) = [arxiv_url].
Proof.
  intros H.
  destruct (search_arxiv_trace _ _ _ _ _ H) as [-> | (e & ->)]; reflexivity.
Qed.

Lemma search_semantic_scholar_calls (w : world) (query : string)
      (max_results : Z) (r : list paper * trace) :
  search_semantic_scholar w query max_results = Ok r ->
  http_calls (snd r) = [s2_url].
Proof.
  unfold search_semantic_scholar.
  destruct (urlencode w _) as [encoded|e]; cbn [bind]; [|discriminate].
  destruct (search_semantic_scholar_try w _); intros H; injection H as <-;
    reflexivity.
Qed.

Lemma search_perplexity_calls (w : world) (query : string) (academic_focus : bool) :
  http_calls (snd (search_perplexity w query academic_focus))
  = if PyStr.is_empty (OPENROUTER_API_KEY w) then [] else [openrouter_url].
Proof.
  unfold search_perplexity.
  destruct (PyStr.is_empty (OPENROUTER_API_KEY w)); [reflexivity|].
  destruct (search_perplexity_try w query); reflexivity.
Qed.

(** X12: the search phase of [main] sends its requests in the order arXiv,
    Semantic Scholar, OpenRouter, at most one to each and none repeated,
    whatever the answers: it stops, with no further request, at the first
    search whose query cannot be encoded, and it sends the one to OpenRouter
    if and only if both searches returned and the OPENROUTER_API_KEY is not
    empty. *)
Theorem main_search_requests
        (w : world) (query : string) (max_results : Z) (arxiv_cats : list string) :
  http_calls (effects (fst (main_search w query max_results arxiv_cats)))
  = match search_arxiv w query max_results arxiv_cats with
    | Raise _ => []
    | Ok _ =>
        arxiv_url
          :: match search_semantic_scholar w query max_results with
             | Raise _ => []
             | Ok _ =>
                 s2_url
                   :: (if PyStr.is_empty (OPENROUTER_API_KEY w) then []
                       else [openrouter_url])
             end
    end.
Proof.
  unfold main_search, extend.
  destruct (search_arxiv w query max_results arxiv_cats) as [ra|e] eqn:Ha;
    [|reflexivity].
  destruct (search_semantic_scholar w query max_results) as [rs|e] eqn:Hs;
    cbn [fst effects app]; rewrite !http_calls_app;
    rewrite (search_arxiv_calls _ _ _ _ _ Ha).
  - rewrite (search_semantic_scholar_calls _ _ _ _ Hs), search_perplexity_calls.
    reflexivity.
  - reflexivity.
Qed.

(** ** search_papers.py: the answer of OpenRouter *)

(** X13: with the key set and an answer that is a JSON object, the summary
    is read through defaults: an answer without choices gives a result whose
    summary is the empty string, whereas an answer whose choices are the
    empty list makes the lookup of its first item raise IndexError, so the
    result is the empty dict with a diagnostic. *)
Theorem perplexity_answer_defaults
        (w : world) (query : string) (academic_focus : bool)
        (answer : list (string * pyval)) :
  PyStr.is_empty (OPENROUTER_API_KEY w) = false ->
  openrouter_api w {| model := "perplexity/sonar-pro";
                      content := perplexity_prompt query;
                      authorization := "Bearer " ++ OPENROUTER_API_KEY w |}
  = Ok (VDict answer) ->
  (dict_get answer "choices" = None ->
   search_perplexity w query academic_focus
   = ([("summary", VStr ""); ("source", VStr "Perplexity Sonar Pro")],
      [HttpCall openrouter_url]))
  /\ (dict_get answer "choices" = Some (VList []) ->
      search_perplexity w query academic_focus
      = ([], [HttpCall openrouter_url;
              Stderr (SearchError "Perplexity" IndexError)])).
Proof.
  intros Hkey Hanswer. split.
  - intros Hc. unfold search_perplexity, search_perplexity_try.
    rewrite Hkey, Hanswer. cbn [bind Py.get].
    rewrite (get_or_None _ _ _ Hc). reflexivity.
  - intros Hc. unfold search_perplexity, search_perplexity_try.
    rewrite Hkey, Hanswer. cbn [bind Py.get].
    rewrite (get_or_Some _ _ _ _ Hc). reflexivity.
Qed.

Lemma perplexity_answer_defaults_witness :
  search_perplexity (keyed_world (Ok (VDict [("error", VStr "quota")])))
    "sparse regression" true
  = ([("summary", VStr ""); ("source", VStr "Perplexity Sonar Pro")],
     [HttpCall openrouter_url])
  /\ search_perplexity (keyed_world (Ok (VDict [("choices", VList [])])))
       "sparse regression" true
     = ([], [HttpCall openrouter_url;
             Stderr (SearchError "Perplexity" IndexError)]).
Proof.
  split.
  - apply (proj1 (perplexity_answer_defaults
                    (keyed_world (Ok (VDict [("error", VStr "quota")])))
                    "sparse regression" true [("error", VStr "quota")]
                    eq_refl eq_refl)).
    reflexivity.
  - apply (proj2 (perplexity_answer_defaults
                    (keyed_world (Ok (VDict [("choices", VList [])])))
                    "sparse regression" true [("choices", VList [])]
                    eq_refl eq_refl)).
    reflexivity.
Defined.

(** ** search_papers.py: the report of [main] *)

Lemma print_listing_strings (papers : list paper) :
  (forall p, In p papers ->
     exists names, Py.get_or p "authors" (VList []) = VList (map VStr names)) ->
  forall i, snd (print_listing i papers) = Ok tt
            /\ List.length (fst (print_listing i papers)) = 4 * List.length papers.
Proof.
  induction papers as [|p papers IH]; intros Hall i; cbn [print_listing].
  - split; reflexivity.
  - destruct (Hall p (or_introl eq_refl)) as (names & ->).
    rewrite join_strings. cbn [fst snd List.length].
    destruct (IH (fun q Hq => Hall q (or_intror Hq)) (S i)) as (Hok & Hlen).
    split; [exact Hok|]. rewrite Hlen. lia.
Qed.

Lemma print_listing_raises (pre : list paper) (p : paper) (rest : list paper)
      (e : exn) :
  (forall q, In q pre ->
     exists names, Py.get_or q "authors" (VList []) = VList (map VStr names)) ->
  Py.join ", " (Py.get_or p "authors" (VList [])) = Raise e ->
  forall i, snd (print_listing i (pre ++ p :: rest)) = Raise e.
Proof.
  induction pre as [|q pre IH]; intros Hpre Hp i; cbn [app print_listing].
  - rewrite Hp. reflexivity.
  - destruct (Hpre q (or_introl eq_refl)) as (names & ->).
    rewrite join_strings. cbn [snd].
    apply IH; [|exact Hp]. intros x Hx. apply Hpre. right. exact Hx.
Qed.

(** X14: without --json, [main] lists the first min(10, length) papers, four
    lines each, when the authors of each of them are a list of strings (or
    are missing); when instead one of the first ten papers has authors that
    cannot be joined (a null author name, say) and the papers before it have
    not, [main] raises at that paper and, even with --output, writes no
    BibTeX file. *)
Theorem listing_of_first_ten
        (st : main_state) (query now : string) (output : option string) :
  ((forall p, In p (firstn 10 (all_papers st)) ->
      exists names, Py.get_or p "authors" (VList []) = VList (map VStr names)) ->
   snd (print_listing 1 (firstn 10 (all_papers st))) = Ok tt
   /\ List.length (fst (print_listing 1 (firstn 10 (all_papers st))))
      = 4 * Nat.min 10 (List.length (all_papers st))
   /\ main_report st query now false output
      = let saved := save_bibtex (all_papers st) output in
        (([ Line (String newline rule);
            Total (List.length (all_papers st));
            Line (rule ++ String newline EmptyString) ]
            ++ fst (print_listing 1 (firstn 10 (all_papers st)))
            ++ print_summary (perplexity_result st)
            ++ fst (fst saved))%list,
         snd (fst saved), snd saved))
  /\ (forall pre p rest e,
        all_papers st = (pre ++ p :: rest)%list ->
        List.length pre < 10 ->
        (forall q, In q pre ->
           exists names, Py.get_or q "authors" (VList []) = VList (map VStr names)) ->
        Py.join ", " (Py.get_or p "authors" (VList [])) = Raise e ->
        snd (main_report st query now false output) = Raise e
        /\ snd (fst (main_report st query now false output)) = []).
Proof.
  split.
  - intros Hall.
    destruct (print_listing_strings _ Hall 1) as (Hok & Hlen).
    split; [exact Hok|]. split.
    + rewrite Hlen, length_firstn. reflexivity.
    + unfold main_report. rewrite Hok. reflexivity.
  - intros pre p rest e Hpapers Hlen Hpre Hp.
    assert (Hraise : snd (print_listing 1 (firstn 10 (all_papers st))) = Raise e).
    { rewrite Hpapers, firstn_app, (firstn_all2 pre (n := 10)) by lia.
      destruct (10 - List.length pre) as [|k] eqn:Hk; [lia|].
      cbn [firstn]. apply print_listing_raises; assumption. }
    unfold main_report. rewrite Hraise. split; reflexivity.
Qed.

Lemma listing_of_first_ten_witness :
  List.length
    (fst (print_listing 1
            (firstn 10 [sparse_regression_paper; hopper2019; lovelace2020]))) = 12
  /\ snd (main_report
            {| all_papers := [sparse_regression_paper; nameless_author_paper];
               perplexity_result := [];
               effects := [] |}
            "sparse regression" "2026-11-03T10:00:00" false (Some "out.bib"))
     = Raise TypeError.
Proof.
  split.
  - destruct (proj1 (listing_of_first_ten
                       {| all_papers := [sparse_regression_paper; hopper2019; lovelace2020];
                          perplexity_result := [];
                          effects := [] |}
                       "sparse regression" "2026-11-03T10:00:00" None))
      as (_ & Hlen & _).
    + intros p [<-|[<-|[<-|[]]]].
      * exists ["Ada Lovelace"; "Alan Turing"]. reflexivity.
      * exists ["Grace Hopper"]. reflexivity.
      * exists ["Ada B. Lovelace"; "Alan Turing"]. reflexivity.
    + exact Hlen.
  - apply (proj2 (listing_of_first_ten
                    {| all_papers := [sparse_regression_paper; nameless_author_paper];
                       perplexity_result := [];
                       effects := [] |}
                    "sparse regression" "2026-11-03T10:00:00" (Some "out.bib"))
                 [sparse_regression_paper] nameless_author_paper [] TypeError).
    + reflexivity.
    + simpl. lia.
    + intros q [<-|[]]. exists ["Ada Lovelace"; "Alan Turing"]. reflexivity.
    + reflexivity.
Defined.

Lemma bibtex_entry_starts (p : paper) (entry : string) :
  bibtex_entry p = Ok entry -> exists rest, entry = String "@" rest.
Proof.
  unfold bibtex_entry. intros H. bind_inv H.
  match goal with
  | x : (string * pyval)%type |- _ => destruct x as [key year]
  end.
  bind_inv H. injection H as <-. eexists. reflexivity.
Qed.

Lemma generate_bibtex_empty (papers : list paper) (text : string) :
  generate_bibtex papers = Ok text -> (text = "" <-> papers = []).
Proof.
  unfold generate_bibtex. intros H. bind_inv H. injection H as <-.
  match goal with
  | Hm : mapM bibtex_entry papers = Ok _ |- _ =>
      apply mapM_Ok_Forall2 in Hm;
      destruct Hm as [|p entry ps entries Hp Hrest]
  end.
  - split; reflexivity.
  - destruct (bibtex_entry_starts p entry Hp) as (rest & ->).
    split; [|discriminate].
    unfold PyStr.join. cbn [String.concat].
    destruct entries; cbn [append]; discriminate.
Qed.

(** X15: [main] of search_papers.py never leaves a partial BibTeX file:
    whatever it writes is the file named by a non-empty --output, holding
    the complete text that [generate_bibtex] returned for all the aggregated
    papers, a text that is empty only when no paper was aggregated; and it
    writes nothing besides. *)
Theorem report_writes_whole_bibtex
        (st : main_state) (query now : string) (json : bool)
        (output : option string) (ev : event) :
  In ev (snd (fst (main_report st query now json output))) ->
  exists name text,
    ev = WriteFile (Path name) text
    /\ output = Some name /\ name <> ""
    /\ generate_bibtex (all_papers st) = Ok text
    /\ (text = "" <-> all_papers st = [])
    /\ snd (fst (main_report st query now json output)) = [ev].
Proof.
  assert (Hsave : forall ev',
            In ev' (snd (fst (save_bibtex (all_papers st) output))) ->
            exists name text,
              ev' = WriteFile (Path name) text
              /\ output = Some name /\ name <> ""
              /\ generate_bibtex (all_papers st) = Ok text
              /\ (text = "" <-> all_papers st = [])
              /\ snd (fst (save_bibtex (all_papers st) output)) = [ev']).
  { intros ev'. unfold save_bibtex. destruct output as [name|]; [|intros []].
    destruct name as [|c name]; [intros []|]. cbn [PyStr.is_empty].
    destruct (generate_bibtex (all_papers st)) as [bib|e] eqn:Hgen; [|intros []].
    cbn [fst snd]. intros [<-|[]].
    exists (String c name), bib.
    split; [reflexivity|]. split; [reflexivity|]. split; [discriminate|].
    split; [reflexivity|]. split; [|reflexivity].
    exact (generate_bibtex_empty _ _ Hgen). }
  unfold main_report. destruct json.
  - cbn [fst snd]. apply Hsave.
  - destruct (snd (print_listing 1 (firstn 10 (all_papers st)))) as [u|e].
    + cbn [fst snd]. apply Hsave.
    + cbn [fst snd]. intros [].
Qed.

Lemma report_writes_whole_bibtex_witness :
  exists text,
    generate_bibtex [lovelace2020] = Ok text
    /\ snd (fst (main_report
                   {| all_papers := [lovelace2020]; perplexity_result := [];
                      effects := [] |}
                   "sparse regression" "2026-11-03T10:00:00" true
                   (Some "out.bib")))
       = [WriteFile (Path "out.bib") text].
Proof.
  destruct (report_writes_whole_bibtex
              {| all_papers := [lovelace2020]; perplexity_result := [];
                 effects := [] |}
              "sparse regression" "2026-11-03T10:00:00" true (Some "out.bib")
              (WriteFile (Path "out.bib")
                 (bibtex_text "lovelace2020sparse" "Sparse  regression bounds"
                    ["Ada B. Lovelace"; "Alan Turing"] "2020"
                    "https://example.org/p" "Semantic Scholar")))
    as (name & text & Hev & _ & _ & Hgen & _ & Hall).
  - left. reflexivity.
  - exists text. split; [exact Hgen|].
    rewrite Hall. injection Hev as _ <-. reflexivity.
Defined.

(** ** search_papers.py: the shape of a citation key *)

Lemma spaceless_app (a b : string) :
  spaceless (a ++ b) = spaceless a && spaceless b.
Proof.
  induction a as [|c a IH]; cbn [append spaceless]; [reflexivity|].
  rewrite IH. apply andb_assoc.
Qed.

Lemma isspace_lower_char (c : ascii) :
  PyStr.isspace (PyStr.lower_char c) = PyStr.isspace c.
Proof.
  destruct c as [b0 b1 b2 b3 b4 b5 b6 b7].
  destruct b0, b1, b2, b3, b4, b5, b6, b7; vm_compute; reflexivity.
Qed.

Lemma spaceless_lower (s : string) :
  spaceless (PyStr.lower s) = spaceless s.
Proof.
  induction s as [|c s IH]; [reflexivity|].
  cbn [PyStr.lower spaceless]. rewrite isspace_lower_char, IH. reflexivity.
Qed.

Lemma first_In {A : Type} (l : list A) (x : A) : Py.first l = Ok x -> In x l.
Proof.
  destruct l as [|a l]; [discriminate|].
  intros H. injection H as <-. left. reflexivity.
Qed.

Lemma split_token_spaceless (s tok : string) :
  In tok (PyStr.split s) -> tok <> "" /\ spaceless tok = true.
Proof.
  intros Hin. pose proof (split_tokens s) as Hall.
  rewrite Forall_forall in Hall. exact (Hall tok Hin).
Qed.

(** X16: whenever [generate_bibtex] builds a citation key, the part taken
    from the author and the part taken from the title are not empty and hold
    no whitespace, so the key holds whitespace only if the year text does,
    and it is never empty. *)
Theorem citation_key_has_no_whitespace (p : paper) (key : string) (year : pyval) :
  citation_key p = Ok (key, year) ->
  key <> ""
  /\ (spaceless (Py.str year) = true -> spaceless key = true).
Proof.
  unfold citation_key. intros H. bind_inv H.
  injection H as <- <-.
  match goal with
  | Hl : Py.last (PyStr.split _) = Ok ?a |- _ =>
      apply last_In, split_token_spaceless in Hl; destruct Hl as (Hane & Has)
  end.
  match goal with
  | Hf : Py.first (PyStr.split _) = Ok ?t |- _ =>
      apply first_In, split_token_spaceless in Hf; destruct Hf as (Htne & Hts)
  end.
  split.
  - match goal with
    | Hane : ?a <> "" |- _ => destruct a; [congruence | discriminate]
    end.
  - intros Hy. rewrite !spaceless_app, !spaceless_lower, Hy.
    match goal with
    | Ha : spaceless ?a = true, Ht : spaceless ?t = true |- _ =>
        rewrite Ha, Ht
    end.
    reflexivity.
Qed.

Lemma citation_key_has_no_whitespace_witness :
  spaceless "lovelace2020sparse" = true.
Proof.
  apply (proj2 (citation_key_has_no_whitespace
                  lovelace2020 "lovelace2020sparse" (VInt 2020) eq_refl)).
  reflexivity.
Defined.

(** ** From the adapters to the bibliography *)

Lemma empty_authors_entry (p : paper) :
  dict_get p "authors" = Some (VList []) -> bibtex_entry p = Raise IndexError.
Proof.
  intros Ha. unfold bibtex_entry, citation_key.
  rewrite (get_or_Some _ _ _ _ Ha). reflexivity.
Qed.

Lemma main_search_papers_In (w : world) (query : string) (max_results : Z)
      (arxiv_cats : list string) (p : paper) :
  In p (all_papers (fst (main_search w query max_results arxiv_cats))) ->
  In p (found (search_arxiv w query max_results arxiv_cats)
          ++ found (search_semantic_scholar w query max_results))%list.
Proof.
  unfold main_search.
  destruct (search_arxiv w query max_results arxiv_cats) as [[a ta]|e];
    [|intros []].
  destruct (search_semantic_scholar w query max_results) as [[s' ts]|e];
    cbn [fst all_papers extend app found]; intros H.
  - exact H.
  - rewrite app_nil_r. exact H.
Qed.

(** X17: a paper aggregated by [main] always carries the fields authors (a
    list), title, url and source, so the placeholders that [generate_bibtex]
    keeps for a missing field are never used for it; in particular a paper
    without any author carries the empty list, and then [generate_bibtex]
    raises on the aggregated papers instead of citing an unknown author. *)
Theorem aggregated_paper_fields
        (w : world) (query : string) (max_results : Z)
        (arxiv_cats : list string) (p : paper) :
  In p (all_papers (fst (main_search w query max_results arxiv_cats))) ->
  (exists authors title url source,
     dict_get p "authors" = Some (VList authors)
     /\ dict_get p "title" = Some title
     /\ dict_get p "url" = Some url
     /\ dict_get p "source" = Some (VStr source))
  /\ (dict_get p "authors" = Some (VList []) ->
      exists e,
        generate_bibtex
          (all_papers (fst (main_search w query max_results arxiv_cats)))
        = Raise e).
Proof.
  intros Hin. split.
  - apply main_search_papers_In in Hin.
    apply in_app_or in Hin as [Hin|Hin].
    + apply search_arxiv_In in Hin as (root & entry & _ & _ & Hp).
      apply arxiv_entry_shape in Hp
        as (title & summary & authors & arxiv_id & cats & published & ->).
      do 4 eexists. repeat split.
    + apply search_semantic_scholar_In in Hin as (data & raw & _ & Hp).
      apply s2_paper_shape in Hp
        as (d & authors & abstract & pdf & n & _ & -> & _).
      do 4 eexists. repeat split.
  - intros Ha. unfold generate_bibtex.
    destruct (mapM_raises bibtex_entry _ p IndexError Hin (empty_authors_entry p Ha))
      as (e & ->).
    exists e. reflexivity.
Qed.

Lemma aggregated_paper_fields_witness :
  exists e,
    generate_bibtex
      (all_papers
         (fst (main_search bad_entry_world "sparse regression" 10 ["stat.ML"])))
    = Raise e.
Proof.
  refine (proj2 (aggregated_paper_fields
                   bad_entry_world "sparse regression" 10 ["stat.ML"]
                   untitled2020 _) eq_refl).
  vm_compute. left. reflexivity.
Defined.

(** X18: a Semantic Scholar record whose authors are missing or empty, and an
    arXiv entry without author elements, still become papers, with the empty
    list as authors; [generate_bibtex] has no entry for such a paper: it
    raises IndexError. *)
Theorem authorless_record_has_no_entry (p : paper) :
  (exists d, s2_paper (VDict d) = Ok p
             /\ Py.get_or d "authors" (VList []) = VList [])
  \/ (exists entry, arxiv_entry entry = Ok p
                    /\ ET.findall entry "author" = []) ->
  dict_get p "authors" = Some (VList [])
  /\ bibtex_entry p = Raise IndexError.
Proof.
  intros H.
  assert (Ha : dict_get p "authors" = Some (VList [])).
  { destruct H as [(d & Hp & Hnone) | (entry & Hp & Hnone)].
    - unfold s2_paper in Hp. cbn beta iota delta [bind Py.get] in Hp.
      rewrite Hnone in Hp. cbn [Py.slice_to firstn bind Py.iter mapM] in Hp.
      bind_inv Hp. injection Hp as <-. reflexivity.
    - unfold arxiv_entry in Hp. rewrite Hnone in Hp.
      cbn [mapM] in Hp. bind_inv Hp. injection Hp as <-. reflexivity. }
  split; [exact Ha | exact (empty_authors_entry p Ha)].
Qed.

Lemma authorless_record_has_no_entry_witness :
  bibtex_entry untitled2020 = Raise IndexError.
Proof.
  apply (authorless_record_has_no_entry untitled2020).
  left. exists [("paperId", VStr "abc"); ("year", VInt 2020)].
  split; reflexivity.
Defined.
